(** * download_mods.py: input loader, release selector and staging run

    A shallow embedding of [scripts/download_mods.py].  Values are the
    objects [json.load] builds; a call either returns, raises a Python
    exception, or leaves the part of Python this development describes. *)

From Stdlib Require Import ZArith List String Ascii Bool Lia Permutation.
From Stdlib Require Import SpecFloat.
Import ListNotations.
Open Scope string_scope.
Open Scope list_scope.

(** ** Python values *)

(** What [json.load] returns.  A string is the sequence of its characters,
    ordered by their codes; a float carries its IEEE value; a dict carries
    its items in insertion order ([json.load] keeps one item per key;
    lookups take the first item with the key). *)
#[warnings="-register-all"]
Inductive json : Type :=
| JNull
| JBool (b : bool)
| JInt (n : Z)
| JFloat (x : spec_float)
| JStr (s : string)
| JList (l : list json)
| JDict (d : list (string * json)).

Inductive exn : Type :=
| SystemExit (msg : string)
| TypeError
| KeyError (key : string)
| AttributeError
| ValueError
| OSError
| RequestException.

(** Outcome of a call.  [Unmodelled] marks behaviour of the interpreter or
    of the operating system that the embedding does not describe. *)
Inductive result (A : Type) : Type :=
| Ok (a : A)
| Raise (e : exn)
| Unmodelled.

Arguments Ok {A} a.
Arguments Raise {A} e.
Arguments Unmodelled {A}.

Definition bind {A B : Type} (c : result A) (k : A -> result B) : result B :=
  match c with
  | Ok a => k a
  | Raise e => Raise e
  | Unmodelled => Unmodelled
  end.

Notation "x <- c ;; k" := (bind c (fun x => k))
  (at level 61, c at next level, right associativity).

Fixpoint mapM {A B : Type} (f : A -> result B) (l : list A) : result (list B) :=
  match l with
  | [] => Ok []
  | x :: l' => y <- f x ;; ys <- mapM f l' ;; Ok (y :: ys)
  end.

(** [[x for x in l if p(x)]] *)
Fixpoint filterM {A : Type} (p : A -> result bool) (l : list A) : result (list A) :=
  match l with
  | [] => Ok []
  | x :: l' =>
      b <- p x ;; ys <- filterM p l' ;; Ok (if b then x :: ys else ys)
  end.

(** ** Built-in operations *)

Module Py.

(** Exact comparison of a float with an integer, as Python's [==] does. *)
Definition float_eq_Z (x : spec_float) (k : Z) : bool :=
  match x with
  | S754_zero _ => (k =? 0)%Z
  | S754_finite s m e =>
      let v := if s then Z.neg m else Z.pos m in
      if (0 <=? e)%Z then (k =? v * 2 ^ e)%Z else (k * 2 ^ (- e) =? v)%Z
  | S754_infinity _ | S754_nan => false
  end.

(** [bool(x)] *)
Definition truthy (x : json) : bool :=
  match x with
  | JNull => false
  | JBool b => b
  | JInt n => negb (n =? 0)%Z
  | JFloat (S754_zero _) => false
  | JFloat _ => true
  | JStr s => negb (s =? "")
  | JList l => match l with [] => false | _ => true end
  | JDict d => match d with [] => false | _ => true end
  end.

(** [x or y] *)
Definition py_or (x y : json) : json := if truthy x then x else y.

Definition isinstance_dict (x : json) : bool :=
  match x with JDict _ => true | _ => false end.

(** [isinstance(x, int)]: [bool] is a subclass of [int]. *)
Definition isinstance_int (x : json) : bool :=
  match x with JInt _ | JBool _ => true | _ => false end.

Fixpoint dict_get (k : string) (d : list (string * json)) : option json :=
  match d with
  | [] => None
  | (k', v) :: d' => if k =? k' then Some v else dict_get k d'
  end.

(** [x[k]] for a string [k] *)
Definition getitem (x : json) (k : string) : result json :=
  match x with
  | JDict d => match dict_get k d with Some v => Ok v | None => Raise (KeyError k) end
  | _ => Raise TypeError
  end.

(** [x.get(k, default)] *)
Definition get (x : json) (k : string) (default : json) : result json :=
  match x with
  | JDict d => Ok (match dict_get k d with Some v => v | None => default end)
  | _ => Raise AttributeError
  end.

Fixpoint chars (s : string) : list json :=
  match s with
  | EmptyString => []
  | String c s' => JStr (String c EmptyString) :: chars s'
  end.

(** The elements [for x in v] visits. *)
Definition iter (v : json) : result (list json) :=
  match v with
  | JList l => Ok l
  | JDict d => Ok (map (fun kv => JStr (fst kv)) d)
  | JStr s => Ok (chars s)
  | _ => Raise TypeError
  end.

Definition hashable (x : json) : bool :=
  match x with JList _ | JDict _ => false | _ => true end.

(** [set(v)], kept as the list of its elements. *)
Definition set (v : json) : result (list json) :=
  xs <- iter v ;;
  if forallb hashable xs then Ok xs else Raise TypeError.

(** [s in gv] for a string [s]: a string equals strings only. *)
Definition str_in (s : string) (gv : list json) : bool :=
  existsb (fun x => match x with JStr t => s =? t | _ => false end) gv.

(** [x == k] for an integer literal [k] *)
Definition eq_int (x : json) (k : Z) : bool :=
  match x with
  | JInt n => (n =? k)%Z
  | JBool b => ((if b then 1 else 0) =? k)%Z
  | JFloat f => float_eq_Z f k
  | _ => false
  end.

(** [a < b] on sort keys.  Strings compare by code point, integers and
    booleans by value; [None] and dicts support no ordering, nor do values
    of different kinds.  Orderings that involve a float or two lists are
    left out. *)
Definition lt (a b : json) : result bool :=
  match a, b with
  | JStr s, JStr t => Ok (s <? t)
  | JNull, _ | _, JNull | JDict _, _ | _, JDict _ => Raise TypeError
  | JFloat _, (JFloat _ | JInt _ | JBool _) => Unmodelled
  | (JInt _ | JBool _), JFloat _ => Unmodelled
  | JList _, JList _ => Unmodelled
  | JInt n, JInt m => Ok (n <? m)%Z
  | JInt n, JBool c => Ok (n <? (if c then 1 else 0))%Z
  | JBool b, JInt m => Ok ((if b then 1 else 0) <? m)%Z
  | JBool b, JBool c => Ok ((if b then 1 else 0) <? (if c then 1 else 0))%Z
  | _, _ => Raise TypeError
  end.

(** ** list.sort(key=..., reverse=True) *)

(** Insertion of [x] in front of the first element that is not below it:
    the ascending stable sort uses [<] only. *)
Fixpoint insert (x : json * json) (l : list (json * json)) : result (list (json * json)) :=
  match l with
  | [] => Ok [x]
  | y :: l' =>
      b <- lt (fst y) (fst x) ;;
      if b then (r <- insert x l' ;; Ok (y :: r)) else Ok (x :: y :: l')
  end.

Fixpoint stable_sort (l : list (json * json)) : result (list (json * json)) :=
  match l with
  | [] => Ok []
  | x :: l' => s <- stable_sort l' ;; insert x s
  end.

(** The keys are computed first; with [reverse=True] the list is reversed,
    sorted ascending and stable, and reversed again, so equal keys keep
    their order.  A list of fewer than two elements is never compared. *)
Definition sort_reverse (key : json -> result json) (l : list json) : result (list json) :=
  keyed <- mapM (fun f => k <- key f ;; Ok (k, f)) l ;;
  sorted <- stable_sort (rev keyed) ;;
  Ok (map snd (rev sorted)).

End Py.

(** ** load_project_ids *)

Definition unrecognized : string :=
  "Unrecognized input JSON format. Provide manifest.json or a list of projectIDs.".

(** The body of [load_project_ids] after [json.load]. *)
Definition load_project_ids_from (data : json) : result (list json) :=
  match data with
  | JDict d =>
      match Py.dict_get "files" d with
      | Some files => xs <- Py.iter files ;; mapM (fun x => Py.getitem x "projectID") xs
      | None => Raise (SystemExit unrecognized)
      end
  | JList l =>
      if forallb Py.isinstance_dict l then mapM (fun x => Py.getitem x "projectID") l
      else if forallb Py.isinstance_int l then Ok l
      else Raise (SystemExit unrecognized)
  | _ => Raise (SystemExit unrecognized)
  end.

(** ** pick_latest_release *)

Section Selector.
Variables (files : json) (mc_ver loader : string).

Definition ok (f : json) (allow_prerelease : bool) : result bool :=
  v <- Py.get f "gameVersions" JNull ;;
  gv <- Py.set (Py.py_or v (JList [])) ;;
  if negb (Py.str_in mc_ver gv) then Ok false
  else if negb (loader =? "") && negb (Py.str_in loader gv) then Ok false
  else
    rt <- Py.get f "releaseType" (JInt 3) ;;
    if allow_prerelease then Ok (Py.eq_int rt 1 || Py.eq_int rt 2)
    else Ok (Py.eq_int rt 1).

Definition select (allow_prerelease : bool) : result (list json) :=
  fs <- Py.iter files ;; filterM (fun f => ok f allow_prerelease) fs.

Definition candidates (allow_beta : bool) : result (list json) :=
  strict <- select false ;;
  match strict with
  | [] => if allow_beta then select true else Ok strict
  | _ => Ok strict
  end.

Definition file_date (f : json) : result json := Py.get f "fileDate" (JStr "").

Definition pick_latest_release (allow_beta : bool) : result (option json) :=
  cs <- candidates allow_beta ;;
  sorted <- Py.sort_reverse file_date cs ;;
  Ok (hd_error sorted).
End Selector.

(** ** The run: environment, staging directory and network *)

Inductive entry : Type :=
| RegularFile (content : string)
| Directory.

(** What the path [args.outdir] names. *)
Inductive stage_state : Type :=
| Missing
| NotADirectory
| Listing (entries : list (string * entry)).

Inductive message : Type :=
| Warn (pid : json) (mcver loader : string)
| Downloading (name : json)
| Done.

Inductive event : Type :=
| EvLoad (path : string)
| EvMakedirs (path : string)
| EvListdir (path : string)
| EvRemove (name : string)
| EvGetFiles (pid : json)
| EvGetDownload (url : json)
| EvOpenWrite (name : string)
| EvPrint (m : message).

(** The streamed body of a download: the bytes received and the error that
    cut the stream short, if one did. *)
Definition body : Type := (string * option exn)%type.

(** The surroundings of one run.  [load_json path] is what [open] followed
    by [json.load] gives; [get_files] is the listing call through
    [raise_for_status] and [r.json()], and [get_download] the download call
    through [raise_for_status]; both may depend on what happened before. *)
Record world : Type := mkWorld {
  api_key : option string;
  load_json : string -> result json;
  get_files : list event -> json -> result json;
  get_download : list event -> json -> result body;
  stage : stage_state;
  trace : list event
}.

Record Args : Type := mkArgs {
  infile : string;
  outdir : string;
  mcver : string;
  loader : string;
  allow_beta : bool
}.

Definition M (A : Type) : Type := world -> result A * world.

Definition ret {A : Type} (a : A) : M A := fun w => (Ok a, w).

Definition raise {A : Type} (e : exn) : M A := fun w => (Raise e, w).

Definition lift {A : Type} (r : result A) : M A := fun w => (r, w).

Definition bindM {A B : Type} (c : M A) (k : A -> M B) : M B :=
  fun w =>
    match c w with
    | (Ok a, w') => k a w'
    | (Raise e, w') => (Raise e, w')
    | (Unmodelled, w') => (Unmodelled, w')
    end.

Declare Scope run_scope.
Delimit Scope run_scope with run.
Notation "x <- c ;; k" := (bindM c (fun x => k))
  (at level 61, c at next level, right associativity) : run_scope.
Notation "c ;; k" := (bindM c (fun _ => k))
  (at level 61, right associativity) : run_scope.

Definition add_event (e : event) (w : world) : world :=
  mkWorld (api_key w) (load_json w) (get_files w) (get_download w)
          (stage w) (trace w ++ [e]).

Definition set_stage (s : stage_state) (w : world) : world :=
  mkWorld (api_key w) (load_json w) (get_files w) (get_download w) s (trace w).

Definition emit (e : event) : M unit := fun w => (Ok tt, add_event e w).

Definition put_stage (s : stage_state) : M unit := fun w => (Ok tt, set_stage s w).

Definition ask {A : Type} (f : world -> A) : M A := fun w => (Ok (f w), w).

(** [for x in l: body(x)] *)
Fixpoint for_each {A : Type} (l : list A) (f : A -> M unit) : M unit :=
  match l with
  | [] => ret tt
  | x :: l' => (f x ;; for_each l' f)%run
  end.

Fixpoint endswith (s suffix : string) : bool :=
  (s =? suffix) ||
  match s with
  | EmptyString => false
  | String _ s' => endswith s' suffix
  end.

Fixpoint lookup_entry (name : string) (es : list (string * entry)) : option entry :=
  match es with
  | [] => None
  | (n, e) :: es' => if name =? n then Some e else lookup_entry name es'
  end.

Fixpoint write_entry (name content : string) (es : list (string * entry))
  : list (string * entry) :=
  match es with
  | [] => [(name, RegularFile content)]
  | (n, e) :: es' =>
      if name =? n then (n, RegularFile content) :: es'
      else (n, e) :: write_entry name content es'
  end.

Definition remove_entry (name : string) (es : list (string * entry))
  : list (string * entry) :=
  filter (fun ne => negb (name =? fst ne)) es.

Fixpoint contains_char (c : ascii) (s : string) : bool :=
  match s with
  | EmptyString => false
  | String c' s' => (c =? c')%char || contains_char c s'
  end.

(** A name that [os.path.join(outdir, name)] places directly inside the
    staging directory. *)
Definition plain_name (name : string) : bool :=
  negb (name =? "") && negb (name =? ".") && negb (name =? "..")
  && negb (contains_char "/"%char name) && negb (contains_char "000"%char name).

(** [os.makedirs(outdir, exist_ok=True)] *)
Definition makedirs (path : string) : M unit :=
  (emit (EvMakedirs path) ;;
   s <- ask stage ;;
   match s with
   | Missing => put_stage (Listing [])
   | NotADirectory => raise OSError
   | Listing _ => ret tt
   end)%run.

(** [os.listdir(outdir)] *)
Definition listdir (path : string) : M (list string) :=
  (emit (EvListdir path) ;;
   s <- ask stage ;;
   match s with
   | Listing es => ret (map fst es)
   | _ => raise OSError
   end)%run.

(** [os.remove(os.path.join(outdir, name))] for a listed name: a directory
    is not removed. *)
Definition remove (name : string) : M unit :=
  (emit (EvRemove name) ;;
   s <- ask stage ;;
   match s with
   | Listing es =>
       match lookup_entry name es with
       | Some (RegularFile _) => put_stage (Listing (remove_entry name es))
       | _ => raise OSError
       end
   | _ => raise OSError
   end)%run.

(** [with open(os.path.join(outdir, name), "wb") as out:
     shutil.copyfileobj(resp.raw, out)] *)
Definition save (name : json) (b : body) : M unit :=
  match name with
  | JStr n =>
      if plain_name n then
        (emit (EvOpenWrite n) ;;
         s <- ask stage ;;
         match s with
         | Listing es =>
             match lookup_entry n es with
             | Some Directory => raise OSError
             | _ =>
                 (put_stage (Listing (write_entry n (fst b) es)) ;;
                  match snd b with
                  | Some e => raise e
                  | None => ret tt
                  end)
             end
         | _ => raise OSError
         end)%run
      else lift Unmodelled
  | _ => raise TypeError
  end.

Definition load_project_ids (path : string) : M (list json) :=
  (emit (EvLoad path) ;;
   r <- ask load_json ;;
   data <- lift (r path) ;;
   lift (load_project_ids_from data))%run.

Section Main.
Variable args : Args.

(** One turn of the loop over the project ids. *)
Definition fetch_project (pid : json) : M unit :=
  (tr <- ask trace ;;
   emit (EvGetFiles pid) ;;
   listing <- ask get_files ;;
   r <- lift (listing tr pid) ;;
   data <- lift (Py.get r "data" (JList [])) ;;
   let files := Py.py_or data (JList []) in
   chosen <- lift (pick_latest_release files (mcver args) (loader args) (allow_beta args)) ;;
   match chosen with
   | None => emit (EvPrint (Warn pid (mcver args) (loader args)))
   | Some c =>
       url <- (if Py.truthy c then lift (Py.get c "downloadUrl" JNull) else ret JNull) ;;
       if negb (Py.truthy c) || negb (Py.truthy url) then
         emit (EvPrint (Warn pid (mcver args) (loader args)))
       else
         name <- lift (Py.getitem c "fileName") ;;
         dl <- lift (Py.getitem c "downloadUrl") ;;
         emit (EvPrint (Downloading name)) ;;
         tr' <- ask trace ;;
         emit (EvGetDownload dl) ;;
         download <- ask get_download ;;
         resp <- lift (download tr' dl) ;;
         save name resp
   end)%run.

Definition clean_stage : M unit :=
  (names <- listdir (outdir args) ;;
   for_each names (fun name =>
     if endswith name ".jar" then remove name else ret tt))%run.

Definition download_all (proj_ids : list json) : M unit :=
  for_each proj_ids fetch_project.

Definition prepare : M (list json) :=
  (key <- ask api_key ;;
   match key with
   | Some (String _ _) =>
       proj_ids <- load_project_ids (infile args) ;;
       makedirs (outdir args) ;;
       clean_stage ;;
       ret proj_ids
   | _ => raise (SystemExit "Missing CURSEFORGE_API_KEY env var")
   end)%run.

Definition main : M unit :=
  (proj_ids <- prepare ;;
   download_all proj_ids ;;
   emit (EvPrint Done))%run.
End Main.

(** The status the process ends with: 0 after a return; an uncaught
    [SystemExit] that carries a message, like any other uncaught exception,
    gives 1. *)
Definition exit_status {A : Type} (r : result A) : option Z :=
  match r with
  | Ok _ => Some 0%Z
  | Raise _ => Some 1%Z
  | Unmodelled => None
  end.

(** ** Vocabulary of the statements *)

(** [x] is a mapping that holds [v] under ["projectID"]. *)
Definition has_project_id (x v : json) : Prop :=
  exists e, x = JDict e /\ Py.dict_get "projectID" e = Some v.

Definition is_integer (x : json) : Prop := exists n, x = JInt n.

Definition is_mapping (x : json) : Prop := exists d, x = JDict d.

(** Integers in the sense of [isinstance(x, int)]. *)
Definition is_integer_or_boolean (x : json) : Prop :=
  is_integer x \/ exists b, x = JBool b.

(** The shapes the loader is said to accept. *)
Definition manifest_shape (data : json) : Prop :=
  exists d files, data = JDict d /\ Py.dict_get "files" d = Some files.

Definition all_mappings (data : json) : Prop :=
  exists l, data = JList l /\ Forall is_mapping l.

Definition all_integers (data : json) : Prop :=
  exists l, data = JList l /\ Forall is_integer l.

Definition all_integers_or_booleans (data : json) : Prop :=
  exists l, data = JList l /\ Forall is_integer_or_boolean l.

(** A file record as the data model has it: a mapping whose
    ["gameVersions"] is missing, null or a list of strings and whose
    ["fileDate"] is missing or a string. *)
Definition file_record (f : json) : Prop :=
  exists d, f = JDict d /\
    (Py.dict_get "gameVersions" d = None \/
     Py.dict_get "gameVersions" d = Some JNull \/
     exists l, Py.dict_get "gameVersions" d = Some (JList (map JStr l))) /\
    (Py.dict_get "fileDate" d = None \/
     exists s, Py.dict_get "fileDate" d = Some (JStr s)).

(** The [fileDate] string of a record, empty when missing. *)
Definition date_of (f : json) : string :=
  match f with
  | JDict d => match Py.dict_get "fileDate" d with Some (JStr s) => s | _ => "" end
  | _ => ""
  end.

(** [f.gameVersions] as the set the predicate tests. *)
Definition game_versions (f : json) : result (list json) :=
  v <- Py.get f "gameVersions" JNull ;; Py.set (Py.py_or v (JList [])).

(** [ok] holds of [f]. *)
Definition accepts (mc_ver loader : string) (allow_prerelease : bool) (f : json) : bool :=
  match ok mc_ver loader f allow_prerelease with Ok true => true | _ => false end.

(** The eligible records of [fs] in input order: those the release-only
    predicate accepts or, when there is none and betas are allowed, those
    the relaxed predicate accepts. *)
Definition eligible (fs : list json) (mc_ver loader : string) (allow_beta : bool)
  : list json :=
  match filter (accepts mc_ver loader false) fs with
  | [] => if allow_beta then filter (accepts mc_ver loader true) fs else []
  | strict => strict
  end.

Definition jar_names (es : list (string * entry)) : list string :=
  filter (fun n => endswith n ".jar") (map fst es).

Definition without_jars (es : list (string * entry)) : list (string * entry) :=
  filter (fun ne => negb (endswith (fst ne) ".jar")) es.

(** Every entry with the jar suffix is a regular file. *)
Definition jars_are_files (es : list (string * entry)) : Prop :=
  forall n e, In (n, e) es -> endswith n ".jar" = true -> exists c, e = RegularFile c.

(** The release-type test of [ok] on the items [d] of a record. *)
Definition release_accepted (d : list (string * json)) (allow_prerelease : bool) : bool :=
  let rt := match Py.dict_get "releaseType" d with Some v => v | None => JInt 3 end in
  if allow_prerelease then Py.eq_int rt 1 || Py.eq_int rt 2 else Py.eq_int rt 1.

(** A record for game version 1.20.1 and the Forge loader. *)
Definition forge_file (date : string) (release_type : Z) : json :=
  JDict [("fileDate", JStr date); ("releaseType", JInt release_type);
         ("gameVersions", JList [JStr "1.20.1"; JStr "Forge"])].

(** On string keys. *)
Definition skey (p : json * json) : string :=
  match fst p with JStr s => s | _ => "" end.

Definition string_keyed (l : list (json * json)) : Prop :=
  Forall (fun p => fst p = JStr (skey p)) l.

(** The entry of the staging directory under a name. *)
Definition entry_at (w : world) (name : string) : option entry :=
  match stage w with
  | Listing es => lookup_entry name es
  | _ => None
  end.

(** From [w] to [w'] nothing was removed from the staging directory: the
    events [evs] were added, none of them a removal; an entry is as it was
    unless a file was opened for writing under its name, and every name
    that had an entry still has one. *)
Definition extends (w w' : world) : Prop :=
  exists evs,
    trace w' = trace w ++ evs /\
    (forall n, ~ In (EvRemove n) evs) /\
    (forall n, entry_at w' n = entry_at w n \/ In (EvOpenWrite n) evs) /\
    (forall n, entry_at w n <> None -> entry_at w' n <> None).

Definition preserving {A : Type} (c : M A) : Prop :=
  forall w r w', c w = (r, w') -> extends w w'.

(** The entries the clean of the names [ns] keeps. *)
Definition kept (ns : list string) (ne : string * entry) : bool :=
  negb (endswith (fst ne) ".jar" && existsb (String.eqb (fst ne)) ns).

(** A world with the given key, parsed input and staging directory; the
    listing of every project holds one Forge release [mod.jar]. *)
Definition sample_world (key : option string) (input : json) (s : stage_state) : world :=
  mkWorld key (fun _ => Ok input)
    (fun _ _ =>
       Ok (JDict [("data",
                   JList [JDict [("fileName", JStr "mod.jar");
                                 ("downloadUrl", JStr "https://edge.example/mod.jar");
                                 ("fileDate", JStr "2024-01-01");
                                 ("releaseType", JInt 1);
                                 ("gameVersions", JList [JStr "1.20.1"; JStr "Forge"])]])]))
    (fun _ _ => Ok ("PK", None))
    s [].

Definition sample_args : Args := mkArgs "manifest.json" "stage" "1.20.1" "Forge" false.

(** A staging directory in which a directory has a name ending in [.jar]. *)
Definition blocked_stage : list (string * entry) :=
  [("libs.jar", Directory); ("old.jar", RegularFile "x")].

Definition blocked_world : world :=
  sample_world (Some "key") (JList [JInt 238222]) (Listing blocked_stage).

(** ** Vocabulary of the further properties *)

(** The ways the loader fails. *)
Definition loader_failure (e : exn) : Prop :=
  e = SystemExit unrecognized \/ e = KeyError "projectID" \/ e = TypeError.

(** A mapping that holds a project id. *)
Definition names_project (x : json) : Prop := exists v, has_project_id x v.

(** The [fileDate] of a record is a string, or null. *)
Definition date_string_or_null (f : json) : Prop :=
  file_date f = Ok JNull \/ exists s, file_date f = Ok (JStr s).

(** The project ids whose listings were requested, in order. *)
Fixpoint requests (tr : list event) : list json :=
  match tr with
  | [] => []
  | EvGetFiles pid :: tr' => pid :: requests tr'
  | _ :: tr' => requests tr'
  end.

(** Every event the computation adds satisfies [P]. *)
Definition adds {A : Type} (P : event -> Prop) (c : M A) : Prop :=
  forall w r w', c w = (r, w') -> exists evs, trace w' = trace w ++ evs /\ Forall P evs.

Definition not_a_request (e : event) : Prop := forall pid, e <> EvGetFiles pid.

Definition not_done (e : event) : Prop := e <> EvPrint Done.

(** A sort key that is null or a string. *)
Definition null_or_string_key (p : json * json) : Prop :=
  fst p = JNull \/ exists s, fst p = JStr s.

Definition null_key (p : json * json) : Prop := fst p = JNull.

Definition null_date (f : json) : Prop := file_date f = Ok JNull.

(** The listings the computation requests are those of [ps], whether it
    completes or not. *)
Definition requesting {A : Type} (ps : list json) (c : M A) : Prop :=
  forall w r w', c w = (r, w') -> requests (trace w') = requests (trace w) ++ ps.

(** * Properties *)

(** ** The error monad *)

Lemma bind_Ok {A B : Type} (c : result A) (k : A -> result B) (b : B) :
  bind c k = Ok b -> exists a, c = Ok a /\ k a = Ok b.
Proof. destruct c; simpl; intros H; try discriminate. eauto. Qed.

Lemma mapM_Forall2 {A B : Type} (f : A -> result B) (l : list A) (vs : list B) :
  Forall2 (fun x v => f x = Ok v) l vs -> mapM f l = Ok vs.
Proof.
  induction 1 as [|x v l vs Hx _ IH]; simpl; [reflexivity|].
  now rewrite Hx, IH.
Qed.

Lemma filterM_In {A : Type} (p : A -> result bool) (l ys : list A) (x : A) :
  filterM p l = Ok ys -> In x ys -> In x l /\ p x = Ok true.
Proof.
  revert ys; induction l as [|a l IH]; simpl; intros ys H Hin.
  - injection H as <-. contradiction.
  - apply bind_Ok in H as (b & Hb & H).
    apply bind_Ok in H as (zs & Hzs & H).
    injection H as <-.
    destruct b.
    + destruct Hin as [<-|Hin]; [now split; [left|]|].
      destruct (IH _ Hzs Hin); auto.
    + destruct (IH _ Hzs Hin); auto.
Qed.

(** ** The loader *)

Lemma forallb_isinstance_dict (l : list json) :
  forallb Py.isinstance_dict l = true <-> Forall is_mapping l.
Proof.
  rewrite forallb_forall, Forall_forall.
  split; intros H x Hx; specialize (H x Hx).
  - destruct x; try discriminate. now exists d.
  - now destruct H as [d ->].
Qed.

Lemma forallb_isinstance_int (l : list json) :
  forallb Py.isinstance_int l = true <-> Forall is_integer_or_boolean l.
Proof.
  rewrite forallb_forall, Forall_forall.
  split; intros H x Hx; specialize (H x Hx).
  - destruct x; try discriminate; [right; now exists b | left; now exists n].
  - now destruct H as [[n ->]|[b ->]].
Qed.

Lemma project_ids_of_mappings (l vs : list json) :
  Forall2 has_project_id l vs ->
  mapM (fun x => Py.getitem x "projectID") l = Ok vs /\ Forall is_mapping l.
Proof.
  intros H; split.
  - apply mapM_Forall2.
    eapply Forall2_impl; [|exact H].
    intros x v (e & -> & He); simpl. now rewrite He.
  - induction H as [|x v l vs (e & -> & _) _ IH]; constructor; auto.
    now exists e.
Qed.

(** C5: a manifest whose ["files"] lists mappings with a ["projectID"], and
    a list of such mappings, give the project ids in listed order; a list
    of integers is returned as it is. *)
Theorem loader_returns_project_ids :
  (forall d l vs,
      Py.dict_get "files" d = Some (JList l) ->
      Forall2 has_project_id l vs ->
      load_project_ids_from (JDict d) = Ok vs) /\
  (forall l vs,
      Forall2 has_project_id l vs ->
      load_project_ids_from (JList l) = Ok vs) /\
  (forall l,
      Forall is_integer l ->
      load_project_ids_from (JList l) = Ok l).
Proof.
  repeat split.
  - intros d l vs Hf H. unfold load_project_ids_from. rewrite Hf. simpl.
    now apply project_ids_of_mappings.
  - intros l vs H. apply project_ids_of_mappings in H as [H Hd].
    apply forallb_isinstance_dict in Hd.
    unfold load_project_ids_from. now rewrite Hd.
  - intros l H. unfold load_project_ids_from.
    destruct (forallb Py.isinstance_dict l) eqn:Hd.
    + apply forallb_isinstance_dict in Hd.
      destruct l as [|x l]; [reflexivity|].
      inversion H as [|? ? [n ->] _]; subst.
      inversion Hd as [|? ? [d Hx] _]; discriminate.
    + assert (Hi : forallb Py.isinstance_int l = true).
      { apply forallb_isinstance_int.
        eapply Forall_impl; [|exact H]. intros x Hx; now left. }
      now rewrite Hi.
Qed.

Lemma loader_returns_project_ids_witness :
  load_project_ids_from
    (JDict [("name", JStr "pack");
            ("files", JList [JDict [("projectID", JInt 238222); ("fileID", JInt 1)];
                             JDict [("projectID", JInt 32274)]])])
  = Ok [JInt 238222; JInt 32274] /\
  load_project_ids_from
    (JList [JDict [("projectID", JInt 238222)]; JDict [("projectID", JInt 32274)]])
  = Ok [JInt 238222; JInt 32274] /\
  load_project_ids_from (JList [JInt 238222; JInt 32274])
  = Ok [JInt 238222; JInt 32274].
Proof.
  destruct loader_returns_project_ids as (Hmanifest & Hmaps & Hints).
  split; [|split].
  - eapply Hmanifest; [reflexivity|].
    repeat constructor; eexists; (split; [reflexivity|reflexivity]).
  - apply Hmaps.
    repeat constructor; eexists; (split; [reflexivity|reflexivity]).
  - apply Hints. repeat constructor; eexists; reflexivity.
Defined.

(** Every shape other than the three the loader reads, where integers are
    taken as [isinstance(x, int)] takes them, ends in the unrecognized
    format exit. *)
Lemma loader_rejects_other_shapes (data : json) :
  ~ manifest_shape data ->
  ~ all_mappings data ->
  ~ all_integers_or_booleans data ->
  load_project_ids_from data = Raise (SystemExit unrecognized).
Proof.
  intros Hm Hd Hi. unfold load_project_ids_from.
  destruct data; try reflexivity.
  - destruct (forallb Py.isinstance_dict l) eqn:Ed.
    { exfalso. apply Hd. exists l. split; [reflexivity|].
      now apply forallb_isinstance_dict. }
    destruct (forallb Py.isinstance_int l) eqn:Ei; [|reflexivity].
    exfalso. apply Hi. exists l. split; [reflexivity|].
    now apply forallb_isinstance_int.
  - destruct (Py.dict_get "files" d) eqn:Ef; [|reflexivity].
    exfalso. apply Hm. now exists d, j.
Qed.

(** C6: a list of JSON booleans is none of the three shapes, yet the
    loader returns it as a list of project ids instead of exiting, and the
    run goes on to request the files of project [True]. *)
Theorem loader_takes_booleans_for_integers :
  ~ manifest_shape (JList [JBool true]) /\
  ~ all_mappings (JList [JBool true]) /\
  ~ all_integers (JList [JBool true]) /\
  load_project_ids_from (JList [JBool true]) = Ok [JBool true] /\
  load_project_ids_from (JList [JBool true]) <> Raise (SystemExit unrecognized) /\
  fst (main sample_args (sample_world (Some "key") (JList [JBool true]) Missing))
  = Ok tt /\
  In (EvGetFiles (JBool true))
     (trace (snd (main sample_args
                       (sample_world (Some "key") (JList [JBool true]) Missing)))).
Proof.
  split; [|split; [|split; [|split; [|split; [|split]]]]].
  - intros (d & f & H & _). discriminate.
  - intros (l & H & Hl). injection H as <-.
    inversion Hl as [|? ? [d Hx] _]. discriminate.
  - intros (l & H & Hl). injection H as <-.
    inversion Hl as [|? ? [n Hx] _]. discriminate.
  - reflexivity.
  - discriminate.
  - reflexivity.
  - vm_compute. tauto.
Qed.

(** ** Order of strings *)

Lemma string_compare_lt_trans (a b c : string) :
  (a ?= b) = Lt -> (b ?= c) = Lt -> (a ?= c) = Lt.
Proof.
  revert b c; induction a as [|x a IH]; intros [|y b] [|z c]; simpl;
    try discriminate; auto.
  unfold Ascii.compare.
  destruct (N.compare_spec (N_of_ascii x) (N_of_ascii y)) as [E1|E1|E1];
    destruct (N.compare_spec (N_of_ascii y) (N_of_ascii z)) as [E2|E2|E2];
    destruct (N.compare_spec (N_of_ascii x) (N_of_ascii z)) as [E3|E3|E3];
    try discriminate; try lia; auto.
  apply IH.
Qed.

Lemma string_ltb_irrefl (a : string) : (a <? a) = false.
Proof.
  unfold String.ltb. pose proof (String.compare_antisym a a) as H.
  destruct (a ?= a); simpl in H; try discriminate; reflexivity.
Qed.

Lemma string_ltb_trans (a b c : string) :
  (a <? b) = true -> (b <? c) = true -> (a <? c) = true.
Proof.
  unfold String.ltb. intros H1 H2.
  destruct (a ?= b) eqn:E1; try discriminate.
  destruct (b ?= c) eqn:E2; try discriminate.
  now rewrite (string_compare_lt_trans _ _ _ E1 E2).
Qed.

Lemma string_ltb_cases (a b c : string) :
  (a <? c) = true -> (a <? b) = true \/ (b <? c) = true.
Proof.
  intros H. destruct (a <? b) eqn:E1; [now left|right].
  unfold String.ltb in E1.
  destruct (a ?= b) eqn:E; try discriminate.
  - apply String.compare_eq_iff in E. now subst.
  - rewrite String.compare_antisym in E.
    assert (Hb : (b <? a) = true).
    { unfold String.ltb. destruct (b ?= a); simpl in E; try discriminate; reflexivity. }
    eapply string_ltb_trans; eauto.
Qed.

(** ** The stable sort *)

Lemma insert_Permutation (x : json * json) (l r : list (json * json)) :
  Py.insert x l = Ok r -> Permutation (x :: l) r.
Proof.
  revert r; induction l as [|y l IH]; simpl; intros r H.
  - injection H as <-. reflexivity.
  - apply bind_Ok in H as (b & _ & H). destruct b.
    + apply bind_Ok in H as (r' & Hr' & H). injection H as <-.
      rewrite perm_swap. constructor. now apply IH.
    + injection H as <-. reflexivity.
Qed.

Lemma stable_sort_Permutation (l s : list (json * json)) :
  Py.stable_sort l = Ok s -> Permutation l s.
Proof.
  revert s; induction l as [|x l IH]; simpl; intros s H.
  - injection H as <-. reflexivity.
  - apply bind_Ok in H as (s' & Hs' & H).
    apply insert_Permutation in H. rewrite <- H. constructor. now apply IH.
Qed.

Lemma insert_strings (x : json * json) (l : list (json * json)) :
  fst x = JStr (skey x) -> string_keyed l ->
  exists r, Py.insert x l = Ok r /\
    ((forall y, In y l -> (skey y <? skey x) = true) -> r = l ++ [x]) /\
    (forall l0 z y, l = l0 ++ [z] -> In y l -> (skey y <? skey x) = false ->
                    exists r0, r = r0 ++ [z]).
Proof.
  intros Hx. induction 1 as [|y l Hy Hl IH]; simpl.
  - exists [x]. repeat split; auto.
    intros l0 z y E. now destruct l0.
  - rewrite Hy, Hx. simpl.
    destruct IH as (r & Hr & Hall & Hlast).
    destruct (skey y <? skey x) eqn:E.
    + rewrite Hr. simpl. exists (y :: r). split; [reflexivity|]. split.
      * intros Hb. rewrite Hall; auto.
      * intros l0 z y0 El Hin Hy0.
        destruct Hin as [<-|Hin]; [congruence|].
        destruct l0 as [|a l0]; simpl in El; injection El as <- El.
        { subst l. contradiction. }
        destruct (Hlast _ _ _ El Hin Hy0) as (r0 & ->).
        now exists (y :: r0).
    + eexists. split; [reflexivity|]. split.
      * intros Hb. rewrite Hb in E by now left. discriminate.
      * intros l0 z y0 El _ _. rewrite El. now exists (x :: l0).
Qed.

Lemma string_keyed_Permutation (l l' : list (json * json)) :
  Permutation l l' -> string_keyed l -> string_keyed l'.
Proof. intros H. unfold string_keyed. now rewrite H. Qed.

(** The ascending stable sort of string-keyed pairs ends with the last of
    the pairs of greatest key. *)
Lemma stable_sort_strings (m : list (json * json)) :
  string_keyed m ->
  exists s, Py.stable_sort m = Ok s /\
    (m <> [] ->
     exists pre x post s0,
       m = pre ++ x :: post /\ s = s0 ++ [x] /\
       (forall y, In y pre -> (skey x <? skey y) = false) /\
       (forall y, In y post -> (skey y <? skey x) = true)).
Proof.
  induction 1 as [|x m Hx Hm IH]; simpl.
  - exists []. split; [reflexivity|]. congruence.
  - destruct IH as (s & Hs & Hdec). rewrite Hs. simpl.
    pose proof (stable_sort_Permutation _ _ Hs) as Hperm.
    destruct (insert_strings x s Hx (string_keyed_Permutation _ _ Hperm Hm))
      as (r & Hr & Hall & Hlast).
    exists r. split; [exact Hr|]. intros _.
    destruct m as [|y0 m0].
    { simpl in Hs. injection Hs as <-. simpl in Hr. injection Hr as <-.
      exists [], x, [], []. repeat split; auto; intros y []. }
    destruct Hdec as (pre & f & post & s0 & Em & Es & Hpre & Hpost); [discriminate|].
    destruct (forallb (fun y => skey y <? skey x) s) eqn:Eall.
    + rewrite forallb_forall in Eall.
      exists [], x, (y0 :: m0), s. repeat split.
      * now apply Hall.
      * intros y [].
      * intros y Hy. apply Eall. now rewrite <- Hperm.
    + assert (Hex : exists y, In y s /\ (skey y <? skey x) = false).
      { clear -Eall. induction s as [|a s IH]; simpl in Eall; [discriminate|].
        destruct (skey a <? skey x) eqn:E.
        - destruct (IH Eall) as (y & Hy & Hlt). exists y; split; [now right|exact Hlt].
        - exists a; split; [now left|exact E]. }
      destruct Hex as (y & Hy & Hyx).
      destruct (Hlast _ _ _ Es Hy Hyx) as (r0 & ->).
      exists (x :: pre), f, post, r0. rewrite Em. repeat split; auto.
      intros z [<-|Hz]; [|now apply Hpre].
      destruct (skey f <? skey x) eqn:Efx; [exfalso|reflexivity].
      destruct (string_ltb_cases _ (skey y) _ Efx) as [Hfy|Hyx']; [|congruence].
      rewrite <- Hperm, Em in Hy. apply in_app_or in Hy as [Hy|[<-|Hy]].
      * rewrite (Hpre _ Hy) in Hfy. discriminate.
      * rewrite string_ltb_irrefl in Hfy. discriminate.
      * pose proof (string_ltb_trans _ _ _ Hfy (Hpost _ Hy)) as Hff.
        rewrite string_ltb_irrefl in Hff. discriminate.
Qed.

Lemma keyed_snd (key : json -> result json) (l : list json) (keyed : list (json * json)) :
  mapM (fun f => k <- key f ;; Ok (k, f)) l = Ok keyed -> map snd keyed = l.
Proof.
  revert keyed; induction l as [|f l IH]; simpl; intros keyed H.
  - now injection H as <-.
  - apply bind_Ok in H as (y & Hy & H).
    apply bind_Ok in H as (ys & Hys & H). injection H as <-.
    apply bind_Ok in Hy as (k & _ & Hy). injection Hy as <-.
    simpl. now rewrite (IH _ Hys).
Qed.

(** What [sort] returns is a rearrangement of the list. *)
Lemma sort_reverse_Permutation (key : json -> result json) (l s : list json) :
  Py.sort_reverse key l = Ok s -> Permutation l s.
Proof.
  unfold Py.sort_reverse. intros H.
  apply bind_Ok in H as (keyed & Hk & H).
  apply bind_Ok in H as (sorted & Hs & H). injection H as <-.
  apply keyed_snd in Hk. apply stable_sort_Permutation in Hs.
  rewrite <- Hk, <- Permutation_rev, <- Hs, <- Permutation_rev. reflexivity.
Qed.

(** With string keys the sort puts first the earliest of the elements of
    greatest key. *)
Lemma sort_reverse_strings (key : json -> result json) (date : json -> string)
      (cs : list json) :
  Forall (fun f => key f = Ok (JStr (date f))) cs ->
  cs <> [] ->
  exists pre f post rest,
    cs = pre ++ f :: post /\
    Py.sort_reverse key cs = Ok (f :: rest) /\
    (forall g, In g pre -> (date g <? date f) = true) /\
    (forall g, In g post -> (date f <? date g) = false).
Proof.
  intros Hkey Hne.
  set (keyed := map (fun f => (JStr (date f), f)) cs).
  assert (HmapM : mapM (fun f => k <- key f ;; Ok (k, f)) cs = Ok keyed).
  { apply mapM_Forall2. subst keyed. clear Hne.
    induction Hkey as [|f cs Hf _ IH]; simpl; constructor; auto.
    now rewrite Hf. }
  assert (Hform : forall y, In y keyed -> fst y = JStr (skey y) /\ skey y = date (snd y)).
  { intros y Hy. apply in_map_iff in Hy as (f & <- & _). now split. }
  assert (Hsk : string_keyed (rev keyed)).
  { apply Forall_forall. intros y Hy. apply in_rev in Hy. now apply Hform. }
  destruct (stable_sort_strings _ Hsk) as (s & Hs & Hdec).
  destruct Hdec as (pre & x & post & s0 & Em & Es & Hpre & Hpost).
  { intros E. apply Hne. apply (f_equal (@rev _)) in E. rewrite rev_involutive in E.
    subst keyed. simpl in E. now apply map_eq_nil in E. }
  assert (Ek : keyed = rev post ++ x :: rev pre).
  { rewrite <- (rev_involutive keyed), Em, rev_app_distr. simpl.
    now rewrite <- app_assoc. }
  assert (Hin : forall y, In y pre \/ y = x \/ In y post -> skey y = date (snd y)).
  { intros y Hy. apply Hform. rewrite Ek. apply in_or_app.
    destruct Hy as [Hy|[->|Hy]]; [right; right|right; now left|left]; now apply in_rev in Hy. }
  exists (map snd (rev post)), (snd x), (map snd (rev pre)), (map snd (rev s0)).
  repeat split.
  - rewrite <- (keyed_snd _ _ _ HmapM), Ek, map_app. reflexivity.
  - unfold Py.sort_reverse. rewrite HmapM. simpl. rewrite Hs. simpl.
    rewrite Es, rev_app_distr. reflexivity.
  - intros g Hg. apply in_map_iff in Hg as (y & <- & Hy). apply in_rev in Hy.
    rewrite <- !Hin by auto. now apply Hpost.
  - intros g Hg. apply in_map_iff in Hg as (y & <- & Hy). apply in_rev in Hy.
    rewrite <- !Hin by auto. now apply Hpre.
Qed.

(** ** The eligibility predicate *)

Lemma str_in_In (s : string) (gv : list json) :
  Py.str_in s gv = true <-> In (JStr s) gv.
Proof.
  unfold Py.str_in. rewrite existsb_exists. split.
  - intros (x & Hx & E). destruct x; try discriminate.
    apply String.eqb_eq in E. now subst.
  - intros H. exists (JStr s). split; [exact H|apply String.eqb_refl].
Qed.

Lemma ok_unfold (mc_ver loader : string) (d : list (string * json)) (ap : bool) :
  ok mc_ver loader (JDict d) ap =
  gv <- game_versions (JDict d) ;;
  if negb (Py.str_in mc_ver gv) then Ok false
  else if negb (loader =? "") && negb (Py.str_in loader gv) then Ok false
  else Ok (release_accepted d ap).
Proof.
  unfold ok, game_versions, release_accepted. simpl.
  destruct (Py.set _); simpl; try reflexivity.
  destruct (negb (Py.str_in mc_ver a)); [reflexivity|].
  destruct (negb (loader =? "") && negb (Py.str_in loader a)); [reflexivity|].
  now destruct ap.
Qed.

Lemma forallb_hashable_strings (l : list string) :
  forallb Py.hashable (map JStr l) = true.
Proof. induction l; simpl; auto. Qed.

Lemma file_record_game_versions (f : json) :
  file_record f -> exists gv, game_versions f = Ok gv.
Proof.
  intros (d & -> & Hgv & _). unfold game_versions. simpl.
  destruct Hgv as [->|[->|(l & ->)]].
  - now exists [].
  - now exists [].
  - destruct l as [|a l]; [now exists []|].
    unfold Py.py_or, Py.set. simpl.
    rewrite forallb_hashable_strings. eauto.
Qed.

Lemma file_record_ok (mc_ver loader : string) (ap : bool) (f : json) :
  file_record f -> exists b, ok mc_ver loader f ap = Ok b.
Proof.
  intros Hf. destruct (file_record_game_versions f Hf) as (gv & Hgv).
  destruct Hf as (d & -> & _). rewrite ok_unfold, Hgv. simpl.
  destruct (negb (Py.str_in mc_ver gv)); eauto.
  destruct (negb (loader =? "") && negb (Py.str_in loader gv)); eauto.
Qed.

Lemma file_record_date (f : json) :
  file_record f -> file_date f = Ok (JStr (date_of f)).
Proof.
  intros (d & -> & _ & Hd). unfold file_date. simpl.
  now destruct Hd as [->|(s & ->)].
Qed.

Lemma filterM_filter (mc_ver loader : string) (ap : bool) (fs : list json) :
  Forall file_record fs ->
  filterM (fun f => ok mc_ver loader f ap) fs = Ok (filter (accepts mc_ver loader ap) fs).
Proof.
  induction 1 as [|f fs Hf _ IH]; simpl; [reflexivity|].
  unfold accepts at 1.
  destruct (file_record_ok mc_ver loader ap f Hf) as (b & ->). simpl.
  rewrite IH. simpl. now destruct b.
Qed.

Lemma candidates_eligible (fs : list json) (mc_ver loader : string) (ab : bool) :
  Forall file_record fs ->
  candidates (JList fs) mc_ver loader ab = Ok (eligible fs mc_ver loader ab).
Proof.
  intros H. unfold candidates, select, eligible. simpl.
  rewrite !filterM_filter by assumption. simpl.
  destruct (filter (accepts mc_ver loader false) fs); [|reflexivity].
  destruct ab; reflexivity.
Qed.

(** Whatever the selector returns passed one of the two predicates. *)
Lemma pick_latest_release_accepted (files : json) (mc_ver loader : string) (ab : bool)
      (f : json) :
  pick_latest_release files mc_ver loader ab = Ok (Some f) ->
  exists ap, ok mc_ver loader f ap = Ok true.
Proof.
  unfold pick_latest_release. intros H.
  apply bind_Ok in H as (cs & Hcs & H).
  apply bind_Ok in H as (sorted & Hs & H). injection H as H.
  assert (Hin : In f cs).
  { apply sort_reverse_Permutation in Hs. rewrite Hs.
    destruct sorted; [discriminate|]. injection H as ->. now left. }
  unfold candidates in Hcs.
  apply bind_Ok in Hcs as (strict & Hstrict & Hcs).
  assert (Hsel : forall ap l, select files mc_ver loader ap = Ok l -> In f l ->
                 ok mc_ver loader f ap = Ok true).
  { intros ap l Hl Hfl. unfold select in Hl.
    apply bind_Ok in Hl as (fs & _ & Hl).
    now destruct (filterM_In _ _ _ _ Hl Hfl). }
  destruct strict as [|a strict].
  - destruct ab.
    + exists true. eapply Hsel; eauto.
    + injection Hcs as <-. contradiction.
  - injection Hcs as <-. exists false. eapply Hsel; eauto.
Qed.

(** ** The selector *)

(** C1: among the eligible records the selector returns the one of
    greatest [fileDate] string (missing read as empty), and of several
    such the earliest in the input; of the January and February releases
    it returns February's. *)
Theorem pick_latest_release_newest :
  (forall fs mc_ver loader ab,
      Forall file_record fs ->
      eligible fs mc_ver loader ab <> [] ->
      exists pre f post,
        eligible fs mc_ver loader ab = pre ++ f :: post /\
        pick_latest_release (JList fs) mc_ver loader ab = Ok (Some f) /\
        (forall g, In g pre -> (date_of g <? date_of f) = true) /\
        (forall g, In g post -> (date_of f <? date_of g) = false)) /\
  pick_latest_release
    (JList [forge_file "2024-01-01" 1; forge_file "2024-02-01" 1])
    "1.20.1" "Forge" false
  = Ok (Some (forge_file "2024-02-01" 1)).
Proof.
  split; [|reflexivity].
  intros fs mc_ver loader ab Hfs Hne.
  assert (Hdates : Forall (fun f => file_date f = Ok (JStr (date_of f)))
                          (eligible fs mc_ver loader ab)).
  { apply Forall_forall. intros f Hf. apply file_record_date.
    rewrite Forall_forall in Hfs. apply Hfs.
    unfold eligible in Hf.
    destruct (filter (accepts mc_ver loader false) fs) eqn:E.
    - destruct ab; [|contradiction]. now apply filter_In in Hf as [Hf _].
    - rewrite <- E in Hf. now apply filter_In in Hf as [Hf _]. }
  destruct (sort_reverse_strings _ _ _ Hdates Hne)
    as (pre & f & post & rest & Ecs & Hsort & Hpre & Hpost).
  exists pre, f, post. repeat split; auto.
  unfold pick_latest_release.
  rewrite candidates_eligible by assumption. simpl.
  now rewrite Hsort.
Qed.

Lemma forge_file_record (date : string) (rt : Z) : file_record (forge_file date rt).
Proof.
  eexists. split; [reflexivity|]. split.
  - right; right. now exists ["1.20.1"; "Forge"].
  - right. now exists date.
Qed.

Lemma pick_latest_release_newest_witness :
  exists pre f post,
    eligible [forge_file "2024-01-01" 1; forge_file "2024-02-01" 1;
              forge_file "2024-02-01" 2; forge_file "2023-12-31" 1]
             "1.20.1" "Forge" false = pre ++ f :: post /\
    pick_latest_release
      (JList [forge_file "2024-01-01" 1; forge_file "2024-02-01" 1;
              forge_file "2024-02-01" 2; forge_file "2023-12-31" 1])
      "1.20.1" "Forge" false = Ok (Some f) /\
    (forall g, In g pre -> (date_of g <? date_of f) = true) /\
    (forall g, In g post -> (date_of f <? date_of g) = false).
Proof.
  apply (proj1 pick_latest_release_newest).
  - repeat constructor; apply forge_file_record.
  - vm_compute. discriminate.
Defined.

(** C2: the relaxed predicate is used only when the release-only filter
    leaves nothing and betas are allowed; a lone beta is returned with
    [allow_beta] and not without; when the release-only filter leaves
    something, [allow_beta] does not change the result. *)
Theorem beta_only_as_fallback :
  (forall files mc_ver loader strict,
      select files mc_ver loader false = Ok strict ->
      candidates files mc_ver loader false = Ok strict /\
      candidates files mc_ver loader true =
        match strict with
        | [] => select files mc_ver loader true
        | _ => Ok strict
        end) /\
  pick_latest_release (JList [forge_file "2024-01-01" 2]) "1.20.1" "Forge" false
  = Ok None /\
  pick_latest_release (JList [forge_file "2024-01-01" 2]) "1.20.1" "Forge" true
  = Ok (Some (forge_file "2024-01-01" 2)) /\
  (forall files mc_ver loader strict,
      select files mc_ver loader false = Ok strict ->
      strict <> [] ->
      pick_latest_release files mc_ver loader true
      = pick_latest_release files mc_ver loader false).
Proof.
  split; [|split; [reflexivity|split; [reflexivity|]]].
  - intros files mc_ver loader strict H. unfold candidates. rewrite H. simpl.
    now destruct strict.
  - intros files mc_ver loader strict H Hne.
    unfold pick_latest_release, candidates. rewrite H. simpl.
    destruct strict; [contradiction|reflexivity].
Qed.

Lemma beta_only_as_fallback_witness :
  pick_latest_release
    (JList [forge_file "2024-03-01" 2; forge_file "2024-01-01" 1]) "1.20.1" "Forge" true
  = pick_latest_release
      (JList [forge_file "2024-03-01" 2; forge_file "2024-01-01" 1]) "1.20.1" "Forge" false.
Proof.
  destruct beta_only_as_fallback as (_ & _ & _ & H).
  apply (H _ _ _ [forge_file "2024-01-01" 1]).
  - reflexivity.
  - discriminate.
Defined.

(** C3: a record whose [releaseType] is 3 or missing fails both
    predicates and is never what the selector returns. *)
Theorem alpha_never_selected :
  forall d,
    Py.dict_get "releaseType" d = None \/ Py.dict_get "releaseType" d = Some (JInt 3) ->
    forall mc_ver loader,
      (forall ap, ok mc_ver loader (JDict d) ap <> Ok true) /\
      (forall ap, file_record (JDict d) -> ok mc_ver loader (JDict d) ap = Ok false) /\
      (forall files ab,
          pick_latest_release files mc_ver loader ab <> Ok (Some (JDict d))).
Proof.
  intros d Hrt mc_ver loader.
  assert (Hrel : forall ap, release_accepted d ap = false).
  { intros ap. unfold release_accepted. destruct Hrt as [->| ->]; now destruct ap. }
  assert (Hno : forall ap, ok mc_ver loader (JDict d) ap <> Ok true).
  { intros ap. rewrite ok_unfold.
    destruct (game_versions (JDict d)); simpl; try discriminate.
    destruct (negb (Py.str_in mc_ver a)); [discriminate|].
    destruct (negb (loader =? "") && negb (Py.str_in loader a)); [discriminate|].
    rewrite Hrel. discriminate. }
  split; [exact Hno|split].
  - intros ap Hf. destruct (file_record_ok mc_ver loader ap _ Hf) as ([|] & Hb); auto.
    now apply Hno in Hb.
  - intros files ab H. apply pick_latest_release_accepted in H as (ap & H).
    now apply Hno in H.
Qed.

Lemma alpha_never_selected_witness :
  ok "1.20.1" "Forge" (forge_file "2024-05-01" 3) true <> Ok true /\
  pick_latest_release (JList [forge_file "2024-05-01" 3; forge_file "2024-01-01" 2])
                      "1.20.1" "Forge" true
  <> Ok (Some (forge_file "2024-05-01" 3)).
Proof.
  destruct (alpha_never_selected
              [("fileDate", JStr "2024-05-01"); ("releaseType", JInt 3);
               ("gameVersions", JList [JStr "1.20.1"; JStr "Forge"])]
              (or_intror eq_refl) "1.20.1" "Forge") as (Hok & _ & Hpick).
  split; [apply Hok|apply Hpick].
Defined.

(** C4: an accepted record lists the game version and, for a non-empty
    loader tag, the loader tag; with the empty loader tag only the game
    version and the release type decide, so a record without any loader
    tag can be accepted. *)
Theorem eligibility_needs_version_and_loader :
  (forall f mc_ver loader ap,
      ok mc_ver loader f ap = Ok true ->
      exists gv, game_versions f = Ok gv /\ In (JStr mc_ver) gv /\
                 (loader <> "" -> In (JStr loader) gv)) /\
  (forall d mc_ver ap gv,
      game_versions (JDict d) = Ok gv ->
      In (JStr mc_ver) gv ->
      ok mc_ver "" (JDict d) ap = Ok (release_accepted d ap)) /\
  (let f := JDict [("releaseType", JInt 1); ("gameVersions", JList [JStr "1.20.1"])] in
   ok "1.20.1" "" f false = Ok true /\ ok "1.20.1" "Forge" f false = Ok false).
Proof.
  split; [|split; [|split; reflexivity]].
  - intros f mc_ver loader ap H.
    destruct f; try discriminate. rewrite ok_unfold in H.
    destruct (game_versions (JDict d)) as [gv| |]; try discriminate.
    simpl in H. exists gv. split; [reflexivity|].
    destruct (Py.str_in mc_ver gv) eqn:Emc; [|discriminate]. simpl in H.
    split; [now apply str_in_In|].
    intros Hl. apply str_in_In.
    destruct (Py.str_in loader gv); [reflexivity|].
    apply String.eqb_neq in Hl. rewrite Hl in H. discriminate.
  - intros d mc_ver ap gv Hgv Hin. rewrite ok_unfold, Hgv. simpl.
    apply str_in_In in Hin. now rewrite Hin.
Qed.

Lemma eligibility_needs_version_and_loader_witness :
  (exists gv, game_versions (forge_file "2024-01-01" 1) = Ok gv /\
              In (JStr "1.20.1") gv /\ ("Forge" <> "" -> In (JStr "Forge") gv)) /\
  ok "1.20.1" "" (JDict [("releaseType", JInt 2); ("gameVersions", JList [JStr "1.20.1"])]) true
  = Ok (release_accepted
          [("releaseType", JInt 2); ("gameVersions", JList [JStr "1.20.1"])] true).
Proof.
  destruct eligibility_needs_version_and_loader as (Hneeds & Hempty & _).
  split.
  - apply (Hneeds _ _ _ false). reflexivity.
  - apply (Hempty _ _ _ [JStr "1.20.1"]); [reflexivity|now left].
Defined.

(** C10: a record whose [gameVersions] is missing or null has the empty
    set of versions, fails both predicates and is never what the selector
    returns. *)
Theorem no_versions_never_selected :
  forall d,
    Py.dict_get "gameVersions" d = None \/ Py.dict_get "gameVersions" d = Some JNull ->
    game_versions (JDict d) = Ok [] /\
    forall mc_ver loader,
      (forall ap, ok mc_ver loader (JDict d) ap = Ok false) /\
      (forall files ab,
          pick_latest_release files mc_ver loader ab <> Ok (Some (JDict d))).
Proof.
  intros d Hgv.
  assert (Hset : game_versions (JDict d) = Ok []).
  { unfold game_versions. simpl. now destruct Hgv as [->| ->]. }
  split; [exact Hset|]. intros mc_ver loader.
  assert (Hok : forall ap, ok mc_ver loader (JDict d) ap = Ok false).
  { intros ap. now rewrite ok_unfold, Hset. }
  split; [exact Hok|].
  intros files ab H. apply pick_latest_release_accepted in H as (ap & H).
  rewrite Hok in H. discriminate.
Qed.

Lemma no_versions_never_selected_witness :
  game_versions (JDict [("fileDate", JStr "2024-01-01"); ("releaseType", JInt 1);
                        ("gameVersions", JNull)]) = Ok [] /\
  ok "1.20.1" "" (JDict [("fileDate", JStr "2024-01-01"); ("releaseType", JInt 1)]) true
  = Ok false.
Proof.
  split.
  - apply (no_versions_never_selected
             [("fileDate", JStr "2024-01-01"); ("releaseType", JInt 1);
              ("gameVersions", JNull)]).
    right. reflexivity.
  - apply (no_versions_never_selected
             [("fileDate", JStr "2024-01-01"); ("releaseType", JInt 1)]).
    left. reflexivity.
Defined.

(** ** The staging directory *)

Lemma bindM_Ok {A B : Type} (c : M A) (k : A -> M B) (w w' : world) (b : B) :
  bindM c k w = (Ok b, w') ->
  exists a w1, c w = (Ok a, w1) /\ k a w1 = (Ok b, w').
Proof.
  unfold bindM. destruct (c w) as [[a| |] w1]; intros H; try discriminate. eauto.
Qed.

Lemma lookup_entry_In (n : string) (es : list (string * entry)) :
  In n (map fst es) -> exists e, lookup_entry n es = Some e /\ In (n, e) es.
Proof.
  induction es as [|[m e] es IH]; simpl; [contradiction|].
  intros H. destruct (n =? m) eqn:E.
  - apply String.eqb_eq in E as ->. exists e. auto.
  - destruct H as [->|H]; [now rewrite String.eqb_refl in E|].
    destruct (IH H) as (e' & He' & Hin). exists e'. auto.
Qed.

Lemma lookup_entry_None (n : string) (es : list (string * entry)) :
  lookup_entry n es = None <-> ~ In n (map fst es).
Proof.
  induction es as [|[m e] es IH]; simpl; [tauto|].
  destruct (n =? m) eqn:E.
  - apply String.eqb_eq in E as ->. split; [discriminate|]. intros H. exfalso. auto.
  - apply String.eqb_neq in E. rewrite IH. split.
    + intros H [->|H']; auto.
    + auto.
Qed.

Lemma lookup_remove_entry_other (n x : string) (es : list (string * entry)) :
  n <> x -> lookup_entry n (remove_entry x es) = lookup_entry n es.
Proof.
  intros Hn. induction es as [|[m e] es IH]; simpl; [reflexivity|].
  destruct (x =? m) eqn:E; simpl.
  - apply String.eqb_eq in E as <-.
    apply String.eqb_neq in Hn. now rewrite Hn.
  - now rewrite IH.
Qed.

Lemma lookup_filter (p : string -> bool) (n : string) (es : list (string * entry)) :
  lookup_entry n (filter (fun ne => p (fst ne)) es)
  = if p n then lookup_entry n es else None.
Proof.
  induction es as [|[m e] es IH]; simpl; [now destruct (p n)|].
  destruct (p m) eqn:Em; simpl; destruct (n =? m) eqn:E; auto.
  - apply String.eqb_eq in E as ->. now rewrite Em.
  - apply String.eqb_eq in E as ->. now rewrite IH, Em.
Qed.

(** After the clean a name has its old entry, or none when it ends in
    [.jar]. *)
Lemma lookup_without_jars (n : string) (es : list (string * entry)) :
  lookup_entry n (without_jars es)
  = if endswith n ".jar" then None else lookup_entry n es.
Proof.
  unfold without_jars.
  rewrite (lookup_filter (fun m => negb (endswith m ".jar"))).
  now destruct (endswith n ".jar").
Qed.

Lemma remove_run (x : string) (w : world) (es : list (string * entry)) :
  stage w = Listing es ->
  remove x w =
  match lookup_entry x es with
  | Some (RegularFile _) =>
      (Ok tt, set_stage (Listing (remove_entry x es)) (add_event (EvRemove x) w))
  | _ => (Raise OSError, add_event (EvRemove x) w)
  end.
Proof.
  intros H. unfold remove, bindM, emit, ask. simpl. rewrite H.
  destruct (lookup_entry x es) as [[c|]|]; reflexivity.
Qed.

Lemma kept_step (x : string) (ns : list string) (es : list (string * entry)) :
  filter (kept ns) (if endswith x ".jar" then remove_entry x es else es)
  = filter (kept (x :: ns)) es.
Proof.
  induction es as [|[m e] es IH]; [now destruct (endswith x ".jar")|].
  assert (Hk : kept (x :: ns) (m, e) =
               if (x =? m) && endswith x ".jar" then false else kept ns (m, e)).
  { unfold kept. simpl. rewrite (String.eqb_sym m x).
    destruct (x =? m) eqn:E; simpl; [|reflexivity].
    apply String.eqb_eq in E as ->.
    destruct (endswith m ".jar"); reflexivity. }
  simpl filter at 2. rewrite Hk, <- IH.
  destruct (endswith x ".jar"); simpl.
  - destruct (x =? m); simpl; reflexivity.
  - rewrite andb_false_r. reflexivity.
Qed.

(** The loop of the clean over the names [ns], when it completes. *)
Lemma clean_loop_sound (ns : list string) :
  forall w w' es,
    stage w = Listing es ->
    for_each ns (fun name => if endswith name ".jar" then remove name else ret tt) w
    = (Ok tt, w') ->
    stage w' = Listing (filter (kept ns) es) /\
    trace w' = trace w ++ map EvRemove (filter (fun n => endswith n ".jar") ns).
Proof.
  induction ns as [|x ns IH]; simpl; intros w w' es Hs H.
  - injection H as <-. rewrite Hs, app_nil_r. split; [|reflexivity].
    f_equal. symmetry. apply forallb_filter_id. apply forallb_forall.
    intros ne _. unfold kept. simpl. now rewrite andb_false_r.
  - apply bindM_Ok in H as ([] & w1 & Hx & H).
    rewrite <- kept_step.
    destruct (endswith x ".jar").
    + rewrite (remove_run x w es Hs) in Hx.
      destruct (lookup_entry x es) as [[c|]|]; try discriminate.
      injection Hx as <-.
      apply IH with (es := remove_entry x es) in H as (Hst & Htr); [|reflexivity].
      split; [exact Hst|]. rewrite Htr. simpl. now rewrite <- app_assoc.
    + injection Hx as <-. now apply IH.
Qed.

(** The loop completes when the names are distinct and those ending in
    [.jar] name regular files. *)
Lemma clean_loop_total (ns : list string) :
  forall w es,
    stage w = Listing es ->
    NoDup ns ->
    (forall n, In n ns -> endswith n ".jar" = true ->
               exists c, lookup_entry n es = Some (RegularFile c)) ->
    exists w',
      for_each ns (fun name => if endswith name ".jar" then remove name else ret tt) w
      = (Ok tt, w').
Proof.
  induction ns as [|x ns IH]; simpl; intros w es Hs Hnd Hreg.
  - now exists w.
  - inversion Hnd as [|? ? Hx Hnd']; subst.
    unfold bindM. destruct (endswith x ".jar") eqn:Ex.
    + rewrite (remove_run x w es Hs).
      destruct (Hreg x (or_introl eq_refl) Ex) as (c & ->).
      apply (IH _ (remove_entry x es)); [reflexivity|exact Hnd'|].
      intros n Hn En. rewrite lookup_remove_entry_other.
      * apply Hreg; auto.
      * intros ->. contradiction.
    + simpl. apply (IH _ es); auto.
Qed.

Lemma filter_kept_all (es : list (string * entry)) :
  filter (kept (map fst es)) es = without_jars es.
Proof.
  apply filter_ext_in. intros ne Hne. unfold kept.
  replace (existsb (String.eqb (fst ne)) (map fst es)) with true;
    [now rewrite andb_true_r|].
  symmetry. apply existsb_exists. exists (fst ne).
  split; [now apply in_map|apply String.eqb_refl].
Qed.

Lemma clean_stage_sound (args : Args) (w w' : world) (es : list (string * entry)) :
  stage w = Listing es ->
  clean_stage args w = (Ok tt, w') ->
  stage w' = Listing (without_jars es) /\
  trace w' = trace w ++ EvListdir (outdir args) :: map EvRemove (jar_names es).
Proof.
  intros Hs H. unfold clean_stage in H.
  apply bindM_Ok in H as (names & w1 & Hl & H).
  unfold listdir, bindM, emit, ask in Hl. simpl in Hl. rewrite Hs in Hl.
  injection Hl as <- <-.
  apply clean_loop_sound with (es := es) in H as (Hst & Htr); [|exact Hs].
  rewrite filter_kept_all in Hst. split; [exact Hst|].
  rewrite Htr. simpl. now rewrite <- app_assoc.
Qed.

Lemma clean_stage_total (args : Args) (w : world) (es : list (string * entry)) :
  stage w = Listing es ->
  NoDup (map fst es) ->
  jars_are_files es ->
  exists w', clean_stage args w = (Ok tt, w').
Proof.
  intros Hs Hnd Hreg. unfold clean_stage, bindM at 1.
  unfold listdir, bindM, emit, ask. simpl. rewrite Hs.
  apply clean_loop_total with (es := es); [exact Hs|exact Hnd|].
  intros n Hn En. destruct (lookup_entry_In _ _ Hn) as (e & He & Hin).
  destruct (Hreg _ _ Hin En) as (c & ->). eauto.
Qed.

(** ** Steps that remove nothing *)

Lemma extends_refl (w : world) : extends w w.
Proof.
  exists []. rewrite app_nil_r. repeat split; auto.
Qed.

Lemma extends_trans (w1 w2 w3 : world) :
  extends w1 w2 -> extends w2 w3 -> extends w1 w3.
Proof.
  intros (e1 & T1 & R1 & U1 & K1) (e2 & T2 & R2 & U2 & K2).
  exists (e1 ++ e2). repeat split.
  - now rewrite T2, T1, app_assoc.
  - intros n H. apply in_app_or in H as [H|H]; [now apply R1 in H|now apply R2 in H].
  - intros n. destruct (U2 n) as [E2|W2]; [|right; apply in_or_app; now right].
    destruct (U1 n) as [E1|W1]; [left; congruence|right; apply in_or_app; now left].
  - intros n H. apply K2, K1, H.
Qed.

Lemma extends_add_event (e : event) (w : world) :
  (forall n, e <> EvRemove n) -> extends w (add_event e w).
Proof.
  intros He. exists [e]. repeat split; auto.
  intros n [H|[]]. now apply He in H.
Qed.

Lemma lookup_write_entry (m n c : string) (es : list (string * entry)) :
  lookup_entry m (write_entry n c es)
  = if m =? n then Some (RegularFile c) else lookup_entry m es.
Proof.
  induction es as [|[k e] es IH]; simpl.
  - destruct (m =? n); reflexivity.
  - destruct (n =? k) eqn:E; simpl.
    + apply String.eqb_eq in E as <-. now destruct (m =? n).
    + destruct (m =? k) eqn:E'; [|exact IH].
      apply String.eqb_eq in E' as ->. now rewrite String.eqb_sym, E.
Qed.

Lemma extends_write (w : world) (es : list (string * entry)) (n c : string) :
  stage w = Listing es ->
  extends w (set_stage (Listing (write_entry n c es)) (add_event (EvOpenWrite n) w)).
Proof.
  intros Hs. exists [EvOpenWrite n]. repeat split.
  - intros m [H|[]]. discriminate.
  - intros m. unfold entry_at. simpl. rewrite Hs, lookup_write_entry.
    destruct (m =? n) eqn:E; [right|now left].
    apply String.eqb_eq in E as ->. now left.
  - intros m. unfold entry_at. simpl. rewrite Hs, lookup_write_entry.
    destruct (m =? n); [discriminate|auto].
Qed.

Lemma preserving_ret {A : Type} (a : A) : preserving (ret a).
Proof. intros w r w' H. injection H as _ <-. apply extends_refl. Qed.

Lemma preserving_raise {A : Type} (e : exn) : preserving (@raise A e).
Proof. intros w r w' H. injection H as _ <-. apply extends_refl. Qed.

Lemma preserving_lift {A : Type} (c : result A) : preserving (lift c).
Proof. intros w r w' H. injection H as _ <-. apply extends_refl. Qed.

Lemma preserving_ask {A : Type} (f : world -> A) : preserving (ask f).
Proof. intros w r w' H. injection H as _ <-. apply extends_refl. Qed.

Lemma preserving_emit (e : event) :
  (forall n, e <> EvRemove n) -> preserving (emit e).
Proof. intros He w r w' H. injection H as _ <-. now apply extends_add_event. Qed.

Lemma preserving_bindM {A B : Type} (c : M A) (k : A -> M B) :
  preserving c -> (forall a, preserving (k a)) -> preserving (bindM c k).
Proof.
  intros Hc Hk w r w' H. unfold bindM in H.
  destruct (c w) as [[a| |] w1] eqn:E.
  - eapply extends_trans; [eapply Hc; eauto|eapply Hk; eauto].
  - injection H as _ <-. eapply Hc; eauto.
  - injection H as _ <-. eapply Hc; eauto.
Qed.

Lemma preserving_for_each {A : Type} (l : list A) (f : A -> M unit) :
  (forall x, preserving (f x)) -> preserving (for_each l f).
Proof.
  intros Hf. induction l as [|x l IH]; simpl.
  - apply preserving_ret.
  - apply preserving_bindM; auto.
Qed.

Lemma preserving_save (name : json) (b : body) : preserving (save name b).
Proof.
  intros w r w' H. unfold save in H.
  destruct name; try (injection H as _ <-; apply extends_refl).
  destruct (plain_name s); [|injection H as _ <-; apply extends_refl].
  unfold bindM, emit, ask, put_stage, raise, ret in H. simpl in H.
  assert (He : extends w (add_event (EvOpenWrite s) w)).
  { apply extends_add_event. discriminate. }
  destruct (stage w) as [| |es] eqn:Hs; try (injection H as _ <-; exact He).
  destruct (lookup_entry s es) as [[c|]|];
    try (injection H as _ <-; exact He);
    destruct (snd b); injection H as _ <-; now apply extends_write.
Qed.

Ltac preserve :=
  repeat first
    [ apply preserving_ret | apply preserving_raise | apply preserving_lift
    | apply preserving_ask | apply preserving_save
    | apply preserving_emit; discriminate
    | apply preserving_bindM; [|intros ?]
    | match goal with
      | |- preserving (match ?x with _ => _ end) => destruct x
      end ].

Lemma preserving_fetch_project (args : Args) (pid : json) :
  preserving (fetch_project args pid).
Proof. unfold fetch_project. preserve. Qed.

(** The loop over the project ids and the closing message remove nothing. *)
Lemma preserving_download_all (args : Args) (ids : list json) :
  preserving (download_all args ids).
Proof. apply preserving_for_each. apply preserving_fetch_project. Qed.

(** ** The run *)

Lemma load_project_ids_run (path : string) (w : world) :
  load_project_ids path w
  = (data <- load_json w path ;; load_project_ids_from data,
     add_event (EvLoad path) w).
Proof.
  unfold load_project_ids, bindM, emit, ask, lift. simpl.
  destruct (load_json w path); reflexivity.
Qed.

Lemma makedirs_run (path : string) (w : world) :
  makedirs path w =
  match stage w with
  | Missing => (Ok tt, set_stage (Listing []) (add_event (EvMakedirs path) w))
  | NotADirectory => (Raise OSError, add_event (EvMakedirs path) w)
  | Listing _ => (Ok tt, add_event (EvMakedirs path) w)
  end.
Proof.
  unfold makedirs, bindM, emit, ask. simpl. now destruct (stage w).
Qed.

(** What [main] does up to the end of the clean, when that is reached. *)
Lemma prepare_sound (args : Args) (w w1 : world) (ids : list json)
      (es : list (string * entry)) :
  stage w = Listing es ->
  prepare args w = (Ok ids, w1) ->
  stage w1 = Listing (without_jars es) /\
  trace w1 = trace w ++ EvLoad (infile args) :: EvMakedirs (outdir args)
                     :: EvListdir (outdir args) :: map EvRemove (jar_names es).
Proof.
  intros Hs H. unfold prepare in H.
  apply bindM_Ok in H as (key & w0 & Hk & H). injection Hk as <- <-.
  destruct (api_key w) as [[|c k]|]; try discriminate.
  apply bindM_Ok in H as (ids' & wa & Hl & H).
  rewrite load_project_ids_run in Hl. injection Hl as _ <-.
  apply bindM_Ok in H as ([] & wb & Hm & H).
  rewrite makedirs_run in Hm. simpl in Hm. rewrite Hs in Hm. injection Hm as <-.
  apply bindM_Ok in H as ([] & wc & Hc & H). injection H as _ <-.
  apply clean_stage_sound with (es := es) in Hc as (Hst & Htr); [|exact Hs].
  split; [exact Hst|]. rewrite Htr. simpl. rewrite <- !app_assoc. reflexivity.
Qed.

(** C7: without the API key the run exits before it does anything, the
    load of the input included; with an input of unrecognized shape it
    exits having only loaded the input: the staging directory is neither
    created nor cleaned and no request is made. *)
Theorem configuration_error_before_effects :
  forall args w,
    (api_key w = None ->
     main args w = (Raise (SystemExit "Missing CURSEFORGE_API_KEY env var"), w)) /\
    (forall k data,
        api_key w = Some k -> k <> "" ->
        load_json w (infile args) = Ok data ->
        load_project_ids_from data = Raise (SystemExit unrecognized) ->
        exists w',
          main args w = (Raise (SystemExit unrecognized), w') /\
          stage w' = stage w /\
          trace w' = trace w ++ [EvLoad (infile args)]).
Proof.
  intros args w. split.
  - intros Hk. unfold main, prepare, bindM, ask. now rewrite Hk.
  - intros k data Hk Hne Hload Hshape.
    exists (add_event (EvLoad (infile args)) w). split; [|now split].
    unfold main, prepare, bindM at 1 2 3, ask. rewrite Hk.
    destruct k as [|c k]; [contradiction|].
    rewrite load_project_ids_run, Hload. simpl. now rewrite Hshape.
Qed.

Lemma configuration_error_before_effects_witness :
  main sample_args
       (sample_world None (JList [JInt 238222])
          (Listing [("old.jar", RegularFile "x")]))
  = (Raise (SystemExit "Missing CURSEFORGE_API_KEY env var"),
     sample_world None (JList [JInt 238222]) (Listing [("old.jar", RegularFile "x")])) /\
  exists w',
    main sample_args
         (sample_world (Some "key") (JList [JInt 238222; JStr "jei"])
            (Listing [("old.jar", RegularFile "x")]))
    = (Raise (SystemExit unrecognized), w') /\
    stage w' = Listing [("old.jar", RegularFile "x")] /\
    trace w' = [EvLoad "manifest.json"].
Proof.
  split.
  - apply configuration_error_before_effects. reflexivity.
  - apply (proj2 (configuration_error_before_effects sample_args
                    (sample_world (Some "key") (JList [JInt 238222; JStr "jei"])
                       (Listing [("old.jar", RegularFile "x")])))
             "key" (JList [JInt 238222; JStr "jei"]));
      [reflexivity|discriminate|reflexivity|reflexivity].
Defined.

(** With the key present, an input that is none of the shapes the loader
    reads ends the run with the unrecognized-format message and status 1. *)
Lemma unrecognized_input_exit_status (args : Args) (w : world) (k : string) (data : json) :
  api_key w = Some k -> k <> "" ->
  load_json w (infile args) = Ok data ->
  ~ manifest_shape data ->
  ~ all_mappings data ->
  ~ all_integers_or_booleans data ->
  fst (main args w) = Raise (SystemExit unrecognized) /\
  exit_status (fst (main args w)) = Some 1%Z.
Proof.
  intros Hk Hne Hload Hm Hd Hi.
  assert (H : fst (main args w) = Raise (SystemExit unrecognized)).
  { unfold main, prepare, bindM at 1 2 3, ask. rewrite Hk.
    destruct k as [|c k]; [contradiction|].
    rewrite load_project_ids_run, Hload. simpl.
    now rewrite (loader_rejects_other_shapes data Hm Hd Hi). }
  split; [exact H|]. now rewrite H.
Qed.

(** C8, as the code has it: when every entry whose name ends in [.jar] is
    a regular file, the clean removes exactly those entries and keeps the
    others as they are; whenever the clean completes it has done so; the
    loop over the projects removes nothing; so an entry ending in [.jar]
    that was there before the run is there after it only when a download
    wrote a file of that name. *)
Theorem stage_cleaned_then_only_written :
  (forall args w es,
      stage w = Listing es ->
      NoDup (map fst es) ->
      jars_are_files es ->
      exists w1,
        clean_stage args w = (Ok tt, w1) /\
        stage w1 = Listing (without_jars es) /\
        trace w1 = trace w ++ EvListdir (outdir args) :: map EvRemove (jar_names es)) /\
  (forall args w es w1,
      stage w = Listing es ->
      clean_stage args w = (Ok tt, w1) ->
      stage w1 = Listing (without_jars es)) /\
  (forall es n,
      lookup_entry n (without_jars es)
      = if endswith n ".jar" then None else lookup_entry n es) /\
  (forall args ids w r w',
      download_all args ids w = (r, w') -> extends w w') /\
  (forall args w es ids w1 r w2,
      stage w = Listing es ->
      prepare args w = (Ok ids, w1) ->
      main args w = (r, w2) ->
      forall n,
        endswith n ".jar" = true ->
        In n (map fst es) ->
        entry_at w2 n <> None ->
        exists evs, trace w2 = trace w ++ evs /\ In (EvOpenWrite n) evs).
Proof.
  split; [|split; [|split; [|split]]].
  - intros args w es Hs Hnd Hreg.
    destruct (clean_stage_total args w es Hs Hnd Hreg) as (w1 & H).
    exists w1. split; [exact H|]. now apply clean_stage_sound.
  - intros args w es w1 Hs H. now apply (clean_stage_sound args w w1 es).
  - intros es n. apply lookup_without_jars.
  - intros args ids w r w'. apply preserving_download_all.
  - intros args w es ids w1 r w2 Hs Hprep Hmain n Hjar _ Hthere.
    destruct (prepare_sound _ _ _ _ _ Hs Hprep) as (Hs1 & Ht1).
    unfold main, bindM at 1 in Hmain. rewrite Hprep in Hmain.
    assert (Hext : extends w1 w2).
    { revert Hmain. apply preserving_bindM.
      - apply preserving_download_all.
      - intros _. apply preserving_emit. discriminate. }
    destruct Hext as (evs & Ht2 & _ & Hsame & _).
    exists ((EvLoad (infile args) :: EvMakedirs (outdir args)
               :: EvListdir (outdir args) :: map EvRemove (jar_names es)) ++ evs).
    split; [now rewrite Ht2, Ht1, app_assoc|].
    apply in_or_app. right.
    destruct (Hsame n) as [E|Hw]; [|exact Hw].
    exfalso. apply Hthere. rewrite E. unfold entry_at.
    now rewrite Hs1, lookup_without_jars, Hjar.
Qed.

Lemma stage_cleaned_then_only_written_witness :
  exists w1,
    clean_stage sample_args
      (sample_world (Some "key") (JList [JInt 238222])
         (Listing [("old.jar", RegularFile "x"); ("notes.txt", RegularFile "y");
                   ("OLD.JAR", Directory)]))
    = (Ok tt, w1) /\
    stage w1 = Listing [("notes.txt", RegularFile "y"); ("OLD.JAR", Directory)] /\
    trace w1 = [EvListdir "stage"; EvRemove "old.jar"].
Proof.
  apply (proj1 stage_cleaned_then_only_written sample_args
           (sample_world (Some "key") (JList [JInt 238222])
              (Listing [("old.jar", RegularFile "x"); ("notes.txt", RegularFile "y");
                        ("OLD.JAR", Directory)]))
           [("old.jar", RegularFile "x"); ("notes.txt", RegularFile "y");
            ("OLD.JAR", Directory)]).
  - reflexivity.
  - repeat constructor; simpl; intuition discriminate.
  - intros n e [H|[H|[H|[]]]]; injection H as <- <-; intros E;
      try discriminate; eauto.
Defined.

(** C8, as stated, fails: an entry ending in [.jar] that is a directory
    stops the clean, and the jar file listed after it is still there after
    the run though nothing was written. *)
Lemma jar_directory_stops_the_clean :
  NoDup (map fst blocked_stage) /\
  stage (snd (clean_stage sample_args blocked_world))
  <> Listing (without_jars blocked_stage) /\
  fst (main sample_args blocked_world) = Raise OSError /\
  entry_at (snd (main sample_args blocked_world)) "old.jar" = Some (RegularFile "x") /\
  ~ In (EvOpenWrite "old.jar") (trace (snd (main sample_args blocked_world))).
Proof.
  split; [|split; [|split; [|split]]].
  - repeat constructor; simpl; intuition discriminate.
  - vm_compute. discriminate.
  - reflexivity.
  - reflexivity.
  - vm_compute. intuition discriminate.
Qed.

(** C9: the empty list passes the all-mappings test and gives no project
    ids; the run over it is the load, the creation of the directory, the
    clean and the closing message, with no request and no download. *)
Theorem empty_list_cleans_and_downloads_nothing :
  all_mappings (JList []) /\
  load_project_ids_from (JList []) = Ok [] /\
  (forall args w k,
      api_key w = Some k -> k <> "" ->
      load_json w (infile args) = Ok (JList []) ->
      main args w
      = (makedirs (outdir args) ;; clean_stage args ;; emit (EvPrint Done))%run
          (add_event (EvLoad (infile args)) w)) /\
  (forall args w k es,
      api_key w = Some k -> k <> "" ->
      load_json w (infile args) = Ok (JList []) ->
      stage w = Listing es ->
      NoDup (map fst es) ->
      jars_are_files es ->
      exists w',
        main args w = (Ok tt, w') /\
        stage w' = Listing (without_jars es) /\
        trace w' = trace w ++ [EvLoad (infile args); EvMakedirs (outdir args);
                               EvListdir (outdir args)]
                           ++ map EvRemove (jar_names es) ++ [EvPrint Done]).
Proof.
  assert (Hrun : forall args w k,
      api_key w = Some k -> k <> "" ->
      load_json w (infile args) = Ok (JList []) ->
      main args w
      = (makedirs (outdir args) ;; clean_stage args ;; emit (EvPrint Done))%run
          (add_event (EvLoad (infile args)) w)).
  { intros args w k Hk Hne Hload.
    unfold main, prepare, bindM at 1 2 3, ask. rewrite Hk.
    destruct k as [|c k]; [contradiction|].
    rewrite load_project_ids_run, Hload. simpl.
    unfold bindM.
    destruct (makedirs (outdir args) _) as [[[]| |] wa]; try reflexivity.
    destruct (clean_stage args wa) as [[[]| |] wb]; reflexivity. }
  split; [|split; [reflexivity|split; [exact Hrun|]]].
  - exists []. split; [reflexivity|constructor].
  - intros args w k es Hk Hne Hload Hs Hnd Hreg.
    rewrite (Hrun args w k Hk Hne Hload).
    unfold bindM at 1. rewrite makedirs_run. simpl. rewrite Hs.
    set (wa := add_event (EvMakedirs (outdir args)) (add_event (EvLoad (infile args)) w)).
    destruct (clean_stage_total args wa es Hs Hnd Hreg) as (wb & Hc).
    destruct (clean_stage_sound args wa wb es Hs Hc) as (Hst & Htr).
    unfold bindM. rewrite Hc.
    exists (add_event (EvPrint Done) wb). split; [reflexivity|]. split; [exact Hst|].
    simpl. rewrite Htr. simpl. rewrite <- !app_assoc. reflexivity.
Qed.

Lemma empty_list_cleans_and_downloads_nothing_witness :
  exists w',
    main sample_args
         (sample_world (Some "key") (JList [])
            (Listing [("old.jar", RegularFile "x"); ("notes.txt", RegularFile "y")]))
    = (Ok tt, w') /\
    stage w' = Listing [("notes.txt", RegularFile "y")] /\
    trace w' = [EvLoad "manifest.json"; EvMakedirs "stage"; EvListdir "stage";
                EvRemove "old.jar"; EvPrint Done].
Proof.
  destruct empty_list_cleans_and_downloads_nothing as (_ & _ & _ & H).
  apply (H sample_args
           (sample_world (Some "key") (JList [])
              (Listing [("old.jar", RegularFile "x"); ("notes.txt", RegularFile "y")]))
           "key" [("old.jar", RegularFile "x"); ("notes.txt", RegularFile "y")]).
  - reflexivity.
  - discriminate.
  - reflexivity.
  - reflexivity.
  - repeat constructor; simpl; intuition discriminate.
  - intros n e [H0|[H0|[]]]; injection H0 as <- <-; intros E;
      try discriminate; eauto.
Defined.

(** * Further properties *)

(** ** The loader: what it returns and how it fails *)

Lemma mapM_Ok_Forall2 {A B : Type} (f : A -> result B) (l : list A) (vs : list B) :
  mapM f l = Ok vs -> Forall2 (fun x v => f x = Ok v) l vs.
Proof.
  revert vs; induction l as [|x l IH]; simpl; intros vs H.
  - injection H as <-. constructor.
  - apply bind_Ok in H as (y & Hy & H).
    apply bind_Ok in H as (ys & Hys & H). injection H as <-.
    constructor; auto.
Qed.

Lemma mapM_app_Raise {A B : Type} (f : A -> result B) (pre post : list A) (x : A)
      (e : exn) :
  Forall (fun y => exists v, f y = Ok v) pre ->
  f x = Raise e ->
  mapM f (pre ++ x :: post) = Raise e.
Proof.
  intros Hpre Hx. induction Hpre as [|y pre (v & Hy) _ IH]; simpl.
  - now rewrite Hx.
  - now rewrite Hy, IH.
Qed.

Lemma getitem_Ok (x v : json) (k : string) :
  Py.getitem x k = Ok v -> exists e, x = JDict e /\ Py.dict_get k e = Some v.
Proof.
  destruct x; simpl; try discriminate.
  destruct (Py.dict_get k d) eqn:E; [|discriminate].
  intros H. injection H as <-. eauto.
Qed.

Lemma project_ids_Forall2 (l ids : list json) :
  mapM (fun x => Py.getitem x "projectID") l = Ok ids -> Forall2 has_project_id l ids.
Proof.
  intros H. apply mapM_Ok_Forall2 in H.
  eapply Forall2_impl; [|exact H].
  intros x v Hx. now apply getitem_Ok in Hx.
Qed.

(** X1: what the loader returns is never partial: it holds the
    ["projectID"] of every element of the manifest's ["files"] or of the
    list, one for one and in order, or it is the list of integers as it was
    given. *)
Theorem loader_result_one_per_element :
  forall data ids,
    load_project_ids_from data = Ok ids ->
    (exists d files xs,
        data = JDict d /\ Py.dict_get "files" d = Some files /\
        Py.iter files = Ok xs /\ Forall2 has_project_id xs ids) \/
    (exists l, data = JList l /\ Forall2 has_project_id l ids) \/
    (exists l, data = JList l /\ Forall is_integer_or_boolean l /\ ids = l).
Proof.
  intros data ids H. unfold load_project_ids_from in H.
  destruct data; try discriminate.
  - destruct (forallb Py.isinstance_dict l) eqn:Ed.
    + right; left. exists l. split; [reflexivity|]. now apply project_ids_Forall2.
    + destruct (forallb Py.isinstance_int l) eqn:Ei; [|discriminate].
      injection H as <-. right; right. exists l.
      split; [reflexivity|]. split; [|reflexivity].
      now apply forallb_isinstance_int.
  - destruct (Py.dict_get "files" d) as [files|] eqn:Ef; [|discriminate].
    apply bind_Ok in H as (xs & Hxs & H).
    left. exists d, files, xs. repeat split; auto.
    now apply project_ids_Forall2.
Qed.

Lemma loader_result_one_per_element_witness :
  (exists d files xs,
      JList [JDict [("projectID", JInt 238222); ("required", JBool true)]] = JDict d /\
      Py.dict_get "files" d = Some files /\
      Py.iter files = Ok xs /\ Forall2 has_project_id xs [JInt 238222]) \/
  (exists l,
      JList [JDict [("projectID", JInt 238222); ("required", JBool true)]] = JList l /\
      Forall2 has_project_id l [JInt 238222]) \/
  (exists l,
      JList [JDict [("projectID", JInt 238222); ("required", JBool true)]] = JList l /\
      Forall is_integer_or_boolean l /\ [JInt 238222] = l).
Proof.
  apply loader_result_one_per_element. reflexivity.
Defined.

(** X2: an element without ["projectID"], after elements that have one,
    makes the loader raise [KeyError] for that key, in a list of mappings
    as in a manifest; this is not the unrecognized-format exit. *)
Theorem loader_missing_project_id :
  (forall pre e post,
      Forall names_project pre ->
      Py.dict_get "projectID" e = None ->
      Forall is_mapping post ->
      load_project_ids_from (JList (pre ++ JDict e :: post))
      = Raise (KeyError "projectID")) /\
  (forall d pre e post,
      Py.dict_get "files" d = Some (JList (pre ++ JDict e :: post)) ->
      Forall names_project pre ->
      Py.dict_get "projectID" e = None ->
      load_project_ids_from (JDict d) = Raise (KeyError "projectID")).
Proof.
  assert (Hmap : forall pre e post,
             Forall names_project pre ->
             Py.dict_get "projectID" e = None ->
             mapM (fun x => Py.getitem x "projectID") (pre ++ JDict e :: post)
             = Raise (KeyError "projectID")).
  { intros pre e post Hpre He. apply mapM_app_Raise.
    - eapply Forall_impl; [|exact Hpre].
      intros x (v & d & -> & Hd). exists v. simpl. now rewrite Hd.
    - simpl. now rewrite He. }
  split.
  - intros pre e post Hpre He Hpost. unfold load_project_ids_from.
    assert (Hd : forallb Py.isinstance_dict (pre ++ JDict e :: post) = true).
    { apply forallb_isinstance_dict. apply Forall_app. split.
      - eapply Forall_impl; [|exact Hpre]. intros x (v & d & -> & _). now exists d.
      - constructor; [now exists e|exact Hpost]. }
    rewrite Hd. now apply Hmap.
  - intros d pre e post Hf Hpre He. unfold load_project_ids_from.
    rewrite Hf. simpl. now apply Hmap.
Qed.

Lemma loader_missing_project_id_witness :
  load_project_ids_from
    (JList [JDict [("projectID", JInt 238222)]; JDict [("fileID", JInt 7)];
            JDict [("projectID", JInt 32274)]])
  = Raise (KeyError "projectID") /\
  load_project_ids_from
    (JDict [("files", JList [JDict [("projectID", JInt 238222)];
                             JDict [("fileID", JInt 7)]; JInt 5])])
  = Raise (KeyError "projectID").
Proof.
  destruct loader_missing_project_id as (Hlist & Hmanifest).
  split.
  - apply (Hlist [JDict [("projectID", JInt 238222)]] [("fileID", JInt 7)]
                 [JDict [("projectID", JInt 32274)]]).
    + repeat constructor. exists (JInt 238222). eexists. split; reflexivity.
    + reflexivity.
    + repeat constructor. eexists. reflexivity.
  - apply (Hmanifest _ [JDict [("projectID", JInt 238222)]] [("fileID", JInt 7)]
                     [JInt 5]).
    + reflexivity.
    + repeat constructor. exists (JInt 238222). eexists. split; reflexivity.
    + reflexivity.
Defined.

Lemma project_ids_modes (l : list json) :
  match mapM (fun x => Py.getitem x "projectID") l with
  | Ok _ => True
  | Raise e => loader_failure e
  | Unmodelled => False
  end.
Proof.
  induction l as [|x l IH]; simpl; [exact I|].
  destruct x; simpl; try (right; right; reflexivity).
  destruct (Py.dict_get "projectID" d); simpl; [|right; left; reflexivity].
  destruct (mapM _ l); simpl; auto.
Qed.

(** X3: on every parsed input the loader returns or raises one of three
    exceptions: the unrecognized-format exit, [KeyError] for
    ["projectID"], or [TypeError]. *)
Theorem loader_failure_modes :
  forall data,
    match load_project_ids_from data with
    | Ok _ => True
    | Raise e => loader_failure e
    | Unmodelled => False
    end.
Proof.
  intros data. unfold load_project_ids_from.
  destruct data; try (left; reflexivity).
  - destruct (forallb Py.isinstance_dict l); [apply project_ids_modes|].
    destruct (forallb Py.isinstance_int l); [exact I|left; reflexivity].
  - destruct (Py.dict_get "files" d) as [files|]; [|left; reflexivity].
    destruct files; simpl; try (right; right; reflexivity);
      apply project_ids_modes.
Qed.

(** ** The selector: origin of the result, failures, edge cases *)

Lemma ok_mapping (mc_ver loader : string) (f : json) (ap b : bool) :
  ok mc_ver loader f ap = Ok b -> is_mapping f.
Proof. destruct f; try discriminate. intros _. now exists d. Qed.

Lemma candidates_origin (files : json) (mc_ver loader : string) (ab : bool)
      (cs : list json) :
  candidates files mc_ver loader ab = Ok cs ->
  exists fs,
    Py.iter files = Ok fs /\
    forall f, In f cs ->
      In f fs /\
      (ok mc_ver loader f false = Ok true \/
       (ab = true /\ select files mc_ver loader false = Ok [] /\
        ok mc_ver loader f true = Ok true)).
Proof.
  unfold candidates. intros H.
  apply bind_Ok in H as (strict & Hstrict & H).
  pose proof Hstrict as Hsel. unfold select in Hsel.
  apply bind_Ok in Hsel as (fs & Hiter & Hfilter).
  exists fs. split; [exact Hiter|]. intros f Hf.
  destruct strict as [|a strict].
  - destruct ab; [|injection H as <-; contradiction].
    unfold select in H. rewrite Hiter in H. simpl in H.
    destruct (filterM_In _ _ _ _ H Hf) as (Hin & Hok). auto.
  - injection H as <-.
    destruct (filterM_In _ _ _ _ Hfilter Hf) as (Hin & Hok). auto.
Qed.

Lemma pick_latest_release_origin (files : json) (mc_ver loader : string) (ab : bool)
      (f : json) :
  pick_latest_release files mc_ver loader ab = Ok (Some f) ->
  exists fs,
    Py.iter files = Ok fs /\ In f fs /\
    (ok mc_ver loader f false = Ok true \/
     (ab = true /\ select files mc_ver loader false = Ok [] /\
      ok mc_ver loader f true = Ok true)).
Proof.
  unfold pick_latest_release. intros H.
  apply bind_Ok in H as (cs & Hcs & H).
  apply bind_Ok in H as (sorted & Hs & H). injection H as H.
  assert (Hin : In f cs).
  { apply sort_reverse_Permutation in Hs. rewrite Hs.
    destruct sorted; [discriminate|]. injection H as ->. now left. }
  destruct (candidates_origin _ _ _ _ _ Hcs) as (fs & Hiter & Hall).
  exists fs. destruct (Hall f Hin). auto.
Qed.

(** X4: the record the selector returns is one of the records it was
    given, and it is a mapping. *)
Theorem pick_latest_release_from_input :
  forall files mc_ver loader ab f,
    pick_latest_release files mc_ver loader ab = Ok (Some f) ->
    exists fs, Py.iter files = Ok fs /\ In f fs /\ is_mapping f.
Proof.
  intros files mc_ver loader ab f H.
  destruct (pick_latest_release_origin _ _ _ _ _ H) as (fs & Hiter & Hin & Hok).
  exists fs. repeat split; auto.
  destruct Hok as [Hok|(_ & _ & Hok)]; eapply ok_mapping; eauto.
Qed.

Lemma pick_latest_release_from_input_witness :
  exists fs,
    Py.iter (JList [forge_file "2024-01-01" 2; forge_file "2024-02-01" 1]) = Ok fs /\
    In (forge_file "2024-02-01" 1) fs /\ is_mapping (forge_file "2024-02-01" 1).
Proof.
  apply (pick_latest_release_from_input _ "1.20.1" "Forge" true). reflexivity.
Defined.

(** X5: a release goes before any beta, whatever the dates: the record
    returned passed the release-only predicate, unless betas are allowed
    and the release-only filter left nothing. *)
Theorem release_before_beta :
  forall files mc_ver loader ab f,
    pick_latest_release files mc_ver loader ab = Ok (Some f) ->
    ok mc_ver loader f false = Ok true \/
    (ab = true /\ select files mc_ver loader false = Ok [] /\
     ok mc_ver loader f true = Ok true).
Proof.
  intros files mc_ver loader ab f H.
  destruct (pick_latest_release_origin _ _ _ _ _ H) as (fs & _ & _ & Hok).
  exact Hok.
Qed.

Lemma release_before_beta_witness :
  ok "1.20.1" "Forge" (forge_file "2023-06-01" 1) false = Ok true \/
  (true = true /\
   select (JList [forge_file "2024-03-01" 2; forge_file "2023-06-01" 1])
          "1.20.1" "Forge" false = Ok [] /\
   ok "1.20.1" "Forge" (forge_file "2023-06-01" 1) true = Ok true).
Proof.
  apply release_before_beta. reflexivity.
Defined.

Lemma eligible_dates (fs : list json) (mc_ver loader : string) (ab : bool) :
  Forall file_record fs ->
  Forall (fun f => file_date f = Ok (JStr (date_of f))) (eligible fs mc_ver loader ab).
Proof.
  intros Hfs. apply Forall_forall. intros f Hf. apply file_record_date.
  rewrite Forall_forall in Hfs. apply Hfs.
  unfold eligible in Hf.
  destruct (filter (accepts mc_ver loader false) fs) eqn:E.
  - destruct ab; [|contradiction]. now apply filter_In in Hf as [Hf _].
  - rewrite <- E in Hf. now apply filter_In in Hf as [Hf _].
Qed.

(** X6: on file records the selector returns [None] exactly when no record
    is eligible. *)
Theorem pick_latest_release_none_iff :
  forall fs mc_ver loader ab,
    Forall file_record fs ->
    (pick_latest_release (JList fs) mc_ver loader ab = Ok None <->
     eligible fs mc_ver loader ab = []).
Proof.
  intros fs mc_ver loader ab Hfs. unfold pick_latest_release.
  rewrite candidates_eligible by assumption. simpl.
  pose proof (eligible_dates fs mc_ver loader ab Hfs) as Hdates.
  destruct (eligible fs mc_ver loader ab) as [|a cs] eqn:E.
  - split; reflexivity.
  - destruct (sort_reverse_strings _ _ _ Hdates) as (pre & f & post & rest & _ & Hs & _);
      [discriminate|].
    rewrite Hs. simpl. split; discriminate.
Qed.

Lemma pick_latest_release_none_iff_witness :
  pick_latest_release (JList [forge_file "2024-01-01" 3; forge_file "2024-02-01" 2])
                      "1.20.1" "Forge" false = Ok None <->
  eligible [forge_file "2024-01-01" 3; forge_file "2024-02-01" 2]
           "1.20.1" "Forge" false = [].
Proof.
  apply pick_latest_release_none_iff.
  repeat constructor; apply forge_file_record.
Defined.

Lemma filterM_app_Raise {A : Type} (p : A -> result bool) (pre post : list A) (x : A)
      (e : exn) :
  Forall (fun y => exists b, p y = Ok b) pre ->
  p x = Raise e ->
  filterM p (pre ++ x :: post) = Raise e.
Proof.
  intros Hpre Hx. induction Hpre as [|y pre (b & Hy) _ IH]; simpl.
  - now rewrite Hx.
  - now rewrite Hy, IH.
Qed.

(** X7: an element of the file list that is not a mapping, after file
    records, makes the selector raise [AttributeError]. *)
Theorem pick_latest_release_non_mapping :
  forall pre x post mc_ver loader ab,
    Forall file_record pre ->
    ~ is_mapping x ->
    pick_latest_release (JList (pre ++ x :: post)) mc_ver loader ab
    = Raise AttributeError.
Proof.
  intros pre x post mc_ver loader ab Hpre Hx.
  unfold pick_latest_release, candidates, select. simpl.
  rewrite (filterM_app_Raise _ pre post x AttributeError); [reflexivity| |].
  - eapply Forall_impl; [|exact Hpre]. intros f Hf. now apply file_record_ok.
  - destruct x; try reflexivity. exfalso. apply Hx. now exists d.
Qed.

Lemma pick_latest_release_non_mapping_witness :
  pick_latest_release (JList [forge_file "2024-01-01" 1; JStr "mod.jar"])
                      "1.20.1" "Forge" true
  = Raise AttributeError.
Proof.
  apply (pick_latest_release_non_mapping [forge_file "2024-01-01" 1] (JStr "mod.jar") []).
  - repeat constructor; apply forge_file_record.
  - intros (d & H). discriminate.
Defined.

(** X8: a single candidate is returned whatever its ["fileDate"] holds:
    nothing is compared. *)
Theorem single_candidate_returned :
  forall files mc_ver loader ab f,
    candidates files mc_ver loader ab = Ok [f] ->
    pick_latest_release files mc_ver loader ab = Ok (Some f).
Proof.
  intros files mc_ver loader ab f H.
  destruct (candidates_origin _ _ _ _ _ H) as (fs & _ & Hall).
  destruct (Hall f (or_introl eq_refl)) as (_ & Hok).
  assert (Hm : is_mapping f).
  { destruct Hok as [Hok|(_ & _ & Hok)]; eapply ok_mapping; eauto. }
  destruct Hm as (d & ->).
  unfold pick_latest_release. rewrite H. reflexivity.
Qed.

Lemma single_candidate_returned_witness :
  pick_latest_release
    (JList [JDict [("fileDate", JNull); ("releaseType", JInt 1);
                   ("gameVersions", JList [JStr "1.20.1"; JStr "Forge"])];
            forge_file "2024-02-01" 3])
    "1.20.1" "Forge" false
  = Ok (Some (JDict [("fileDate", JNull); ("releaseType", JInt 1);
                     ("gameVersions", JList [JStr "1.20.1"; JStr "Forge"])])).
Proof.
  apply single_candidate_returned. reflexivity.
Defined.

Lemma lt_null_l (b : json) : Py.lt JNull b = Raise TypeError.
Proof. now destruct b. Qed.

Lemma lt_null_r (a : json) : Py.lt a JNull = Raise TypeError.
Proof. now destruct a. Qed.

Lemma keys_null_or_strings (m : list (json * json)) :
  Forall null_or_string_key m -> Exists null_key m \/ string_keyed m.
Proof.
  induction 1 as [|x m Hx _ IH]; [right; constructor|].
  destruct Hx as [Hx|(s & Hx)]; [left; now constructor|].
  destruct IH as [IH|IH]; [left; now constructor|right].
  constructor; [|exact IH]. unfold skey. now rewrite Hx.
Qed.

(** Two or more keys, strings or null with a null among them, cannot be
    sorted. *)
Lemma stable_sort_null (m : list (json * json)) :
  Forall null_or_string_key m -> Exists null_key m -> 2 <= List.length m ->
  Py.stable_sort m = Raise TypeError.
Proof.
  induction m as [|x m IH]; intros HF HE HL; [simpl in HL; lia|].
  inversion HF as [|? ? Hx Hm]; subst. simpl.
  destruct (keys_null_or_strings m Hm) as [HEm|Hstr].
  - destruct m as [|y [|z m]].
    + inversion HEm.
    + inversion HEm as [? ? Hy|? ? Hn]; [|inversion Hn]. simpl.
      unfold null_key in Hy. now rewrite Hy, lt_null_l.
    + rewrite IH; [reflexivity|exact Hm|exact HEm|simpl; lia].
  - assert (Hnull : fst x = JNull).
    { inversion HE as [? ? H|? ? H]; [exact H|].
      apply Exists_exists in H as (p & Hp & Hn).
      unfold string_keyed in Hstr. rewrite Forall_forall in Hstr.
      specialize (Hstr p Hp). unfold null_key in Hn. congruence. }
    destruct (stable_sort_strings m Hstr) as (s & Hs & _).
    pose proof (stable_sort_Permutation _ _ Hs) as Hperm.
    rewrite Hs. simpl. destruct s as [|y s].
    + apply Permutation_sym, Permutation_nil in Hperm. subst.
      simpl in HL. lia.
    + simpl. now rewrite Hnull, lt_null_r.
Qed.

Lemma keyed_dates (cs : list json) :
  Forall date_string_or_null cs ->
  exists keyed,
    mapM (fun f => k <- file_date f ;; Ok (k, f)) cs = Ok keyed /\
    List.length keyed = List.length cs /\
    Forall null_or_string_key keyed /\
    (Exists null_date cs -> Exists null_key keyed).
Proof.
  induction 1 as [|f cs Hf _ (keyed & Hk & Hlen & Hkeys & Hnull)].
  - exists []. repeat split; auto. intros H. inversion H.
  - assert (Hkey : exists k, file_date f = Ok k /\ null_or_string_key (k, f) /\
                             (null_date f -> k = JNull)).
    { destruct Hf as [Hf|(s & Hf)].
      - exists JNull. repeat split; auto. now left.
      - exists (JStr s). repeat split; auto.
        + right. now exists s.
        + unfold null_date. congruence. }
    destruct Hkey as (k & Hfk & Hkk & Hkn).
    exists ((k, f) :: keyed). simpl. rewrite Hfk. simpl. rewrite Hk. simpl.
    repeat split; auto.
    intros HE. inversion HE as [? ? H|? ? H]; subst.
    + left. unfold null_key. simpl. auto.
    + right. auto.
Qed.

(** X9: with two or more candidates whose ["fileDate"] are strings or
    null, one null among them makes the selector raise [TypeError]:
    [None] cannot be ordered. *)
Theorem null_date_among_candidates :
  forall files mc_ver loader ab cs,
    candidates files mc_ver loader ab = Ok cs ->
    2 <= List.length cs ->
    Forall date_string_or_null cs ->
    Exists null_date cs ->
    pick_latest_release files mc_ver loader ab = Raise TypeError.
Proof.
  intros files mc_ver loader ab cs Hcs Hlen Hdates Hnull.
  unfold pick_latest_release. rewrite Hcs. simpl.
  destruct (keyed_dates cs Hdates) as (keyed & Hk & Hl & Hkeys & Hex).
  unfold Py.sort_reverse. rewrite Hk. simpl.
  rewrite stable_sort_null; [reflexivity| | |].
  - now apply Forall_rev.
  - apply Exists_exists. apply Hex in Hnull.
    apply Exists_exists in Hnull as (p & Hp & Hn).
    exists p. split; [now apply in_rev in Hp|exact Hn].
  - rewrite length_rev. lia.
Qed.

Lemma null_date_among_candidates_witness :
  pick_latest_release
    (JList [forge_file "2024-01-01" 1;
            JDict [("fileDate", JNull); ("releaseType", JInt 1);
                   ("gameVersions", JList [JStr "1.20.1"; JStr "Forge"])]])
    "1.20.1" "Forge" false
  = Raise TypeError.
Proof.
  apply (null_date_among_candidates _ _ _ _
           [forge_file "2024-01-01" 1;
            JDict [("fileDate", JNull); ("releaseType", JInt 1);
                   ("gameVersions", JList [JStr "1.20.1"; JStr "Forge"])]]).
  - reflexivity.
  - simpl. lia.
  - constructor; [right; now exists "2024-01-01"|].
    constructor; [left; reflexivity|constructor].
  - apply Exists_cons_tl, Exists_cons_hd. reflexivity.
Defined.

(** ** The run: key, input and staging directory *)

Lemma endswith_app (p suffix : string) : endswith (p ++ suffix)%string suffix = true.
Proof.
  induction p as [|c p IH]; cbn [endswith String.append].
  - destruct suffix; cbn [endswith]; now rewrite String.eqb_refl.
  - now rewrite IH, orb_true_r.
Qed.

Lemma endswith_suffix (s suffix : string) :
  endswith s suffix = true <-> exists p, s = (p ++ suffix)%string.
Proof.
  split; [|intros (p & ->); apply endswith_app].
  induction s as [|c s IH]; cbn [endswith]; intros H.
  - rewrite orb_false_r in H. apply String.eqb_eq in H. now exists "".
  - apply orb_true_iff in H as [H|H].
    + apply String.eqb_eq in H. exists "". exact H.
    + destruct (IH H) as (p & ->). now exists (String c p).
Qed.

(** X10: when the clean completes, a name of the form [p ++ ".jar"] has
    no entry any more, and every other name has the entry it had; the
    match is on the exact characters of the suffix. *)
Theorem clean_removes_exact_suffix :
  forall args w es w1,
    stage w = Listing es ->
    clean_stage args w = (Ok tt, w1) ->
    forall n,
      ((exists p, n = (p ++ ".jar")%string) -> entry_at w1 n = None) /\
      (~ (exists p, n = (p ++ ".jar")%string) -> entry_at w1 n = lookup_entry n es).
Proof.
  intros args w es w1 Hs Hc n.
  destruct (clean_stage_sound args w w1 es Hs Hc) as (Hs1 & _).
  unfold entry_at. rewrite Hs1, lookup_without_jars.
  split; intros H.
  - apply endswith_suffix in H. now rewrite H.
  - destruct (endswith n ".jar") eqn:E; [|reflexivity].
    exfalso. apply H. now apply endswith_suffix.
Qed.

Lemma clean_removes_exact_suffix_witness :
  entry_at
    (snd (clean_stage sample_args
            (sample_world (Some "key") (JList [])
               (Listing [("mod.JAR", RegularFile "a"); ("mod.jar", RegularFile "b")]))))
    "mod.JAR" = Some (RegularFile "a") /\
  entry_at
    (snd (clean_stage sample_args
            (sample_world (Some "key") (JList [])
               (Listing [("mod.JAR", RegularFile "a"); ("mod.jar", RegularFile "b")]))))
    "mod.jar" = None.
Proof.
  split.
  - apply (clean_removes_exact_suffix sample_args
             (sample_world (Some "key") (JList [])
                (Listing [("mod.JAR", RegularFile "a"); ("mod.jar", RegularFile "b")]))
             [("mod.JAR", RegularFile "a"); ("mod.jar", RegularFile "b")] _
             eq_refl eq_refl "mod.JAR").
    intros H. apply endswith_suffix in H. discriminate.
  - apply (clean_removes_exact_suffix sample_args
             (sample_world (Some "key") (JList [])
                (Listing [("mod.JAR", RegularFile "a"); ("mod.jar", RegularFile "b")]))
             [("mod.JAR", RegularFile "a"); ("mod.jar", RegularFile "b")] _
             eq_refl eq_refl "mod.jar").
    now exists "mod".
Defined.

(** X11: an empty API key is taken as a missing one: the run exits with
    the same message before it does anything. *)
Theorem empty_api_key_is_missing :
  forall args w,
    api_key w = Some "" ->
    main args w = (Raise (SystemExit "Missing CURSEFORGE_API_KEY env var"), w).
Proof.
  intros args w Hk. unfold main, prepare, bindM, ask. now rewrite Hk.
Qed.

Lemma empty_api_key_is_missing_witness :
  main sample_args (sample_world (Some "") (JList [JInt 238222]) Missing)
  = (Raise (SystemExit "Missing CURSEFORGE_API_KEY env var"),
     sample_world (Some "") (JList [JInt 238222]) Missing).
Proof.
  apply empty_api_key_is_missing. reflexivity.
Defined.

(** X12: whatever stops the load of the input, be it the file, its JSON
    or a project id that is missing, stops the run with that exception
    before the staging directory is touched and before any request. *)
Theorem load_failure_stops_the_run :
  forall args w k e,
    api_key w = Some k -> k <> "" ->
    (data <- load_json w (infile args) ;; load_project_ids_from data) = Raise e ->
    main args w = (Raise e, add_event (EvLoad (infile args)) w).
Proof.
  intros args w k e Hk Hne Hload.
  unfold main, prepare, bindM at 1 2 3, ask. rewrite Hk.
  destruct k as [|c k]; [contradiction|].
  now rewrite load_project_ids_run, Hload.
Qed.

Lemma load_failure_stops_the_run_witness :
  main sample_args
       (sample_world (Some "key")
          (JList [JDict [("projectID", JInt 238222)]; JDict [("fileID", JInt 7)]])
          (Listing [("old.jar", RegularFile "x")]))
  = (Raise (KeyError "projectID"),
     add_event (EvLoad "manifest.json")
       (sample_world (Some "key")
          (JList [JDict [("projectID", JInt 238222)]; JDict [("fileID", JInt 7)]])
          (Listing [("old.jar", RegularFile "x")]))).
Proof.
  apply (load_failure_stops_the_run sample_args _ "key");
    [reflexivity|discriminate|reflexivity].
Defined.

(** X13: a staging directory that does not exist is created empty and
    there is nothing to clean; a path that is not a directory stops the
    run with [OSError] before anything is listed, removed or requested. *)
Theorem staging_directory_made_or_refused :
  (forall args w k ids,
      api_key w = Some k -> k <> "" ->
      (data <- load_json w (infile args) ;; load_project_ids_from data) = Ok ids ->
      stage w = Missing ->
      exists w1,
        prepare args w = (Ok ids, w1) /\
        stage w1 = Listing [] /\
        trace w1 = trace w ++ [EvLoad (infile args); EvMakedirs (outdir args);
                               EvListdir (outdir args)]) /\
  (forall args w k ids,
      api_key w = Some k -> k <> "" ->
      (data <- load_json w (infile args) ;; load_project_ids_from data) = Ok ids ->
      stage w = NotADirectory ->
      exists w',
        main args w = (Raise OSError, w') /\
        stage w' = NotADirectory /\
        trace w' = trace w ++ [EvLoad (infile args); EvMakedirs (outdir args)]).
Proof.
  split; intros args w k ids Hk Hne Hload Hs.
  - eexists. split.
    + unfold prepare, bindM at 1 2 3, ask. rewrite Hk.
      destruct k as [|c k]; [contradiction|].
      rewrite load_project_ids_run, Hload, makedirs_run. simpl. rewrite Hs.
      reflexivity.
    + simpl. split; [reflexivity|]. now rewrite <- !app_assoc.
  - eexists. split.
    + unfold main, prepare, bindM at 1 2 3 4, ask. rewrite Hk.
      destruct k as [|c k]; [contradiction|].
      rewrite load_project_ids_run, Hload, makedirs_run. simpl. rewrite Hs.
      reflexivity.
    + simpl. split; [exact Hs|]. now rewrite <- !app_assoc.
Qed.

Lemma staging_directory_made_or_refused_witness :
  (exists w1,
      prepare sample_args (sample_world (Some "key") (JList [JInt 238222]) Missing)
      = (Ok [JInt 238222], w1) /\
      stage w1 = Listing [] /\
      trace w1 = [EvLoad "manifest.json"; EvMakedirs "stage"; EvListdir "stage"]) /\
  (exists w',
      main sample_args (sample_world (Some "key") (JList [JInt 238222]) NotADirectory)
      = (Raise OSError, w') /\
      stage w' = NotADirectory /\
      trace w' = [EvLoad "manifest.json"; EvMakedirs "stage"]).
Proof.
  destruct staging_directory_made_or_refused as (Hmade & Hrefused).
  split.
  - apply (Hmade sample_args
                 (sample_world (Some "key") (JList [JInt 238222]) Missing)
                 "key" [JInt 238222]);
      [reflexivity|discriminate|reflexivity|reflexivity].
  - apply (Hrefused sample_args
                    (sample_world (Some "key") (JList [JInt 238222]) NotADirectory)
                    "key" [JInt 238222]);
      [reflexivity|discriminate|reflexivity|reflexivity].
Defined.

(** ** The run: what is requested and printed *)

Lemma adds_ret {A : Type} (P : event -> Prop) (a : A) : adds P (ret a).
Proof. intros w r w' H. injection H as _ <-. exists []. now rewrite app_nil_r. Qed.

Lemma adds_raise {A : Type} (P : event -> Prop) (e : exn) : adds P (@raise A e).
Proof. intros w r w' H. injection H as _ <-. exists []. now rewrite app_nil_r. Qed.

Lemma adds_lift {A : Type} (P : event -> Prop) (c : result A) : adds P (lift c).
Proof. intros w r w' H. injection H as _ <-. exists []. now rewrite app_nil_r. Qed.

Lemma adds_ask {A : Type} (P : event -> Prop) (f : world -> A) : adds P (ask f).
Proof. intros w r w' H. injection H as _ <-. exists []. now rewrite app_nil_r. Qed.

Lemma adds_put_stage (P : event -> Prop) (s : stage_state) : adds P (put_stage s).
Proof. intros w r w' H. injection H as _ <-. exists []. simpl. now rewrite app_nil_r. Qed.

Lemma adds_emit (P : event -> Prop) (e : event) : P e -> adds P (emit e).
Proof. intros He w r w' H. injection H as _ <-. exists [e]. auto. Qed.

Lemma adds_bindM {A B : Type} (P : event -> Prop) (c : M A) (k : A -> M B) :
  adds P c -> (forall a, adds P (k a)) -> adds P (bindM c k).
Proof.
  intros Hc Hk w r w' H. unfold bindM in H.
  destruct (c w) as [[a| |] w1] eqn:E.
  - destruct (Hc _ _ _ E) as (e1 & T1 & F1).
    destruct (Hk _ _ _ _ H) as (e2 & T2 & F2).
    exists (e1 ++ e2). split; [now rewrite T2, T1, app_assoc|].
    apply Forall_app. auto.
  - injection H as _ <-. eapply Hc; eauto.
  - injection H as _ <-. eapply Hc; eauto.
Qed.

Lemma adds_for_each {A : Type} (P : event -> Prop) (l : list A) (f : A -> M unit) :
  (forall x, adds P (f x)) -> adds P (for_each l f).
Proof.
  intros Hf. induction l as [|x l IH]; simpl.
  - apply adds_ret.
  - apply adds_bindM; auto.
Qed.

Ltac adding tac :=
  repeat first
    [ apply adds_ret | apply adds_raise | apply adds_lift | apply adds_ask
    | apply adds_put_stage
    | apply adds_emit; tac
    | apply adds_for_each; intros ?
    | apply adds_bindM; [|intros ?]
    | match goal with
      | |- adds _ (match ?x with _ => _ end) => destruct x
      end ].

Lemma requests_app (a b : list event) : requests (a ++ b) = requests a ++ requests b.
Proof.
  induction a as [|e a IH]; simpl; [reflexivity|].
  destruct e; simpl; now rewrite IH.
Qed.

Lemma requests_none (evs : list event) : Forall not_a_request evs -> requests evs = [].
Proof.
  induction 1 as [|e evs He _ IH]; simpl; [reflexivity|].
  destruct e; auto. now destruct (He pid).
Qed.

Lemma adds_requesting {A : Type} (c : M A) : adds not_a_request c -> requesting [] c.
Proof.
  intros Hc w r w' H. destruct (Hc _ _ _ H) as (evs & -> & Hevs).
  now rewrite requests_app, (requests_none _ Hevs).
Qed.

Lemma fetch_project_requesting (args : Args) (pid : json) :
  requesting [pid] (fetch_project args pid).
Proof.
  intros w r w' H. unfold fetch_project in H.
  unfold bindM at 1 2 in H. simpl in H.
  match type of H with
  | ?c _ = _ => assert (Hc : requesting [] c)
  end.
  { apply adds_requesting. unfold save.
    adding ltac:(intros ?; discriminate). }
  apply Hc in H. rewrite H. simpl.
  now rewrite requests_app, app_nil_r.
Qed.

(** X14: the listings are requested one project at a time in the order of
    the ids, each once; a run of the loop that does not complete stops at
    the project that failed, and the projects after it are never
    requested. *)
Theorem one_request_per_project :
  forall args ids w r w',
    download_all args ids w = (r, w') ->
    exists requested rest,
      ids = requested ++ rest /\
      requests (trace w') = requests (trace w) ++ requested /\
      (r = Ok tt -> rest = []) /\
      (r <> Ok tt -> requested <> []).
Proof.
  intros args ids. unfold download_all.
  induction ids as [|pid ids IH]; simpl; intros w r w' H.
  - injection H as <- <-. exists [], [].
    split; [reflexivity|split; [now rewrite app_nil_r|split; [reflexivity|]]].
    intros Hr. now contradiction Hr.
  - unfold bindM in H.
    destruct (fetch_project args pid w) as [[[]| |] w1] eqn:E;
      pose proof (fetch_project_requesting args pid _ _ _ E) as Hreq.
    + destruct (IH _ _ _ H) as (requested & rest & -> & Htr & Hok & Hfail).
      exists (pid :: requested), rest. repeat split; auto.
      * rewrite Htr, Hreq, <- app_assoc. reflexivity.
      * discriminate.
    + injection H as <- <-. exists [pid], ids. repeat split; auto; discriminate.
    + injection H as <- <-. exists [pid], ids. repeat split; auto; discriminate.
Qed.

Lemma one_request_per_project_witness :
  exists requested rest,
    [JInt 238222; JInt 32274] = requested ++ rest /\
    requests (trace (snd (download_all sample_args [JInt 238222; JInt 32274]
                            (sample_world (Some "key") (JList []) (Listing [])))))
    = requests (trace (sample_world (Some "key") (JList []) (Listing []))) ++ requested /\
    (Ok tt = Ok tt -> rest = []) /\
    (Ok tt <> Ok tt -> requested <> []).
Proof.
  apply (one_request_per_project sample_args [JInt 238222; JInt 32274]
           (sample_world (Some "key") (JList []) (Listing []))).
  reflexivity.
Defined.

Lemma adds_prepare (args : Args) : adds not_done (prepare args).
Proof.
  unfold prepare, load_project_ids, makedirs, clean_stage, listdir, remove.
  adding ltac:(discriminate).
Qed.

Lemma adds_download_all (args : Args) (ids : list json) :
  adds not_done (download_all args ids).
Proof.
  unfold download_all, fetch_project, save.
  adding ltac:(discriminate).
Qed.

(** X15: the closing message is printed exactly when the run completes,
    and then it is the last thing that happens; a run that stops on an
    exception never prints it. *)
Theorem done_exactly_when_completed :
  forall args w r w',
    main args w = (r, w') ->
    exists evs,
      trace w' = trace w ++ evs /\
      (r = Ok tt ->
       exists before, evs = before ++ [EvPrint Done] /\ Forall not_done before) /\
      (r <> Ok tt -> Forall not_done evs).
Proof.
  intros args w r w' H. unfold main, bindM in H.
  destruct (prepare args w) as [[ids| |] w1] eqn:Ep;
    destruct (adds_prepare args _ _ _ Ep) as (e1 & T1 & F1).
  - destruct (download_all args ids w1) as [[[]| |] w2] eqn:Ed;
      destruct (adds_download_all args ids _ _ _ Ed) as (e2 & T2 & F2);
      injection H as <- <-.
    + exists ((e1 ++ e2) ++ [EvPrint Done]). split.
      * simpl. now rewrite T2, T1, !app_assoc.
      * split; [|intros Hr; now contradiction Hr].
        intros _. exists (e1 ++ e2). split; [reflexivity|]. apply Forall_app. auto.
    + exists (e1 ++ e2). split; [now rewrite T2, T1, app_assoc|].
      split; [discriminate|]. intros _. apply Forall_app. auto.
    + exists (e1 ++ e2). split; [now rewrite T2, T1, app_assoc|].
      split; [discriminate|]. intros _. apply Forall_app. auto.
  - injection H as <- <-. exists e1. split; [exact T1|]. split; [discriminate|auto].
  - injection H as <- <-. exists e1. split; [exact T1|]. split; [discriminate|auto].
Qed.

Lemma done_exactly_when_completed_witness :
  exists evs,
    trace (snd (main sample_args blocked_world)) = trace blocked_world ++ evs /\
    (fst (main sample_args blocked_world) = Ok tt ->
     exists before, evs = before ++ [EvPrint Done] /\ Forall not_done before) /\
    (fst (main sample_args blocked_world) <> Ok tt -> Forall not_done evs).
Proof.
  apply (done_exactly_when_completed sample_args blocked_world).
  reflexivity.
Defined.

(** ** One turn of the loop *)

Lemma py_or_list (fs : list json) : Py.py_or (JList fs) (JList []) = JList fs.
Proof. now destruct fs. Qed.

Lemma pick_none_of_no_eligible (fs : list json) (mc_ver loader : string) (ab : bool) :
  Forall file_record fs ->
  eligible fs mc_ver loader ab = [] ->
  pick_latest_release (JList fs) mc_ver loader ab = Ok None.
Proof.
  intros Hfs He. unfold pick_latest_release.
  rewrite candidates_eligible by assumption. now rewrite He.
Qed.

Lemma pick_truthy (files : json) (mc_ver loader : string) (ab : bool) (c : json) :
  pick_latest_release files mc_ver loader ab = Ok (Some c) ->
  (exists d, c = JDict d) /\ Py.truthy c = true.
Proof.
  intros H. destruct (pick_latest_release_origin _ _ _ _ _ H) as (fs & _ & _ & Hok).
  assert (Hap : exists ap, ok mc_ver loader c ap = Ok true).
  { destruct Hok as [Hok|(_ & _ & Hok)]; eauto. }
  destruct Hap as (ap & Hap).
  destruct c; try discriminate.
  split; [now exists d|].
  destruct d; [|reflexivity].
  rewrite ok_unfold in Hap. discriminate.
Qed.

Lemma get_truthy_getitem (c url : json) (k : string) :
  Py.get c k JNull = Ok url -> Py.truthy url = true -> Py.getitem c k = Ok url.
Proof.
  destruct c; simpl; try discriminate.
  destruct (Py.dict_get k d); intros H Ht; injection H as <-;
    [reflexivity|discriminate].
Qed.

(** X16: a project whose listing has no ["data"], a null or empty one, or
    only file records none of which is eligible, gets a warning and
    nothing else: no download is requested, the staging directory is as it
    was, and the turn completes. *)
Theorem no_match_only_warns :
  (forall args pid w d,
      get_files w (trace w) pid = Ok (JDict d) ->
      Py.dict_get "data" d = None \/ Py.dict_get "data" d = Some JNull ->
      fetch_project args pid w
      = (Ok tt, add_event (EvPrint (Warn pid (mcver args) (loader args)))
                  (add_event (EvGetFiles pid) w))) /\
  (forall args pid w d fs,
      get_files w (trace w) pid = Ok (JDict d) ->
      Py.dict_get "data" d = Some (JList fs) ->
      Forall file_record fs ->
      eligible fs (mcver args) (loader args) (allow_beta args) = [] ->
      fetch_project args pid w
      = (Ok tt, add_event (EvPrint (Warn pid (mcver args) (loader args)))
                  (add_event (EvGetFiles pid) w))).
Proof.
  split.
  - intros args pid w d Hl Hd.
    unfold fetch_project, bindM, ask, emit, lift. simpl. rewrite Hl. simpl.
    destruct Hd as [-> | ->]; destruct (allow_beta args); reflexivity.
  - intros args pid w d fs Hl Hd Hfs He.
    unfold fetch_project, bindM, ask, emit, lift. simpl. rewrite Hl. simpl.
    rewrite Hd, py_or_list, (pick_none_of_no_eligible _ _ _ _ Hfs He).
    reflexivity.
Qed.

Lemma no_match_only_warns_witness :
  fetch_project sample_args (JInt 238222)
    (mkWorld (Some "key") (fun _ => Ok (JList []))
       (fun _ _ => Ok (JDict [("pagination", JDict [])]))
       (fun _ _ => Raise RequestException) (Listing []) [])
  = (Ok tt,
     add_event (EvPrint (Warn (JInt 238222) "1.20.1" "Forge"))
       (add_event (EvGetFiles (JInt 238222))
          (mkWorld (Some "key") (fun _ => Ok (JList []))
             (fun _ _ => Ok (JDict [("pagination", JDict [])]))
             (fun _ _ => Raise RequestException) (Listing []) []))) /\
  fetch_project sample_args (JInt 238222)
    (mkWorld (Some "key") (fun _ => Ok (JList []))
       (fun _ _ => Ok (JDict [("data", JList [forge_file "2024-01-01" 2])]))
       (fun _ _ => Raise RequestException) (Listing []) [])
  = (Ok tt,
     add_event (EvPrint (Warn (JInt 238222) "1.20.1" "Forge"))
       (add_event (EvGetFiles (JInt 238222))
          (mkWorld (Some "key") (fun _ => Ok (JList []))
             (fun _ _ => Ok (JDict [("data", JList [forge_file "2024-01-01" 2])]))
             (fun _ _ => Raise RequestException) (Listing []) []))).
Proof.
  destruct no_match_only_warns as (Hnone & Hineligible).
  split.
  - apply (Hnone sample_args (JInt 238222) _ [("pagination", JDict [])]).
    + reflexivity.
    + left. reflexivity.
  - apply (Hineligible sample_args (JInt 238222) _
             [("data", JList [forge_file "2024-01-01" 2])]
             [forge_file "2024-01-01" 2]).
    + reflexivity.
    + reflexivity.
    + repeat constructor; apply forge_file_record.
    + reflexivity.
Defined.

(** X17: when the chosen record has no ["downloadUrl"], or a null or
    empty one, the project gets the same warning: no download is
    requested and nothing is written. *)
Theorem missing_url_only_warns :
  forall args pid w r data c url,
    get_files w (trace w) pid = Ok r ->
    Py.get r "data" (JList []) = Ok data ->
    pick_latest_release (Py.py_or data (JList []))
                        (mcver args) (loader args) (allow_beta args) = Ok (Some c) ->
    Py.get c "downloadUrl" JNull = Ok url ->
    Py.truthy url = false ->
    fetch_project args pid w
    = (Ok tt, add_event (EvPrint (Warn pid (mcver args) (loader args)))
                (add_event (EvGetFiles pid) w)).
Proof.
  intros args pid w r data c url Hl Hd Hp Hu Ht.
  destruct (pick_truthy _ _ _ _ _ Hp) as (_ & Hc).
  unfold fetch_project, bindM, ask, emit, lift. simpl. rewrite Hl. simpl.
  rewrite Hd. simpl. rewrite Hp. simpl. rewrite Hc, Hu, Ht. reflexivity.
Qed.

Lemma missing_url_only_warns_witness :
  fetch_project sample_args (JInt 238222)
    (mkWorld (Some "key") (fun _ => Ok (JList []))
       (fun _ _ => Ok (JDict [("data", JList [forge_file "2024-01-01" 1])]))
       (fun _ _ => Ok ("PK", None)) (Listing []) [])
  = (Ok tt,
     add_event (EvPrint (Warn (JInt 238222) "1.20.1" "Forge"))
       (add_event (EvGetFiles (JInt 238222))
          (mkWorld (Some "key") (fun _ => Ok (JList []))
             (fun _ _ => Ok (JDict [("data", JList [forge_file "2024-01-01" 1])]))
             (fun _ _ => Ok ("PK", None)) (Listing []) []))).
Proof.
  apply (missing_url_only_warns sample_args (JInt 238222) _
           (JDict [("data", JList [forge_file "2024-01-01" 1])])
           (JList [forge_file "2024-01-01" 1])
           (forge_file "2024-01-01" 1) JNull);
    reflexivity.
Defined.

(** X18: a download stores the bytes received under the record's
    ["fileName"], replacing what the name held: all of them when the
    stream ends, and those received before the error when the stream
    breaks, in which case the error is raised and the partial file stays. *)
Theorem download_stored_under_file_name :
  forall args pid w r data c url n content err es,
    get_files w (trace w) pid = Ok r ->
    Py.get r "data" (JList []) = Ok data ->
    pick_latest_release (Py.py_or data (JList []))
                        (mcver args) (loader args) (allow_beta args) = Ok (Some c) ->
    Py.get c "downloadUrl" JNull = Ok url ->
    Py.truthy url = true ->
    Py.getitem c "fileName" = Ok (JStr n) ->
    plain_name n = true ->
    (forall tr, get_download w tr url = Ok (content, err)) ->
    stage w = Listing es ->
    lookup_entry n es <> Some Directory ->
    exists w',
      fetch_project args pid w
      = (match err with Some e => Raise e | None => Ok tt end, w') /\
      stage w' = Listing (write_entry n content es) /\
      entry_at w' n = Some (RegularFile content) /\
      (forall m, m <> n -> entry_at w' m = lookup_entry m es) /\
      trace w' = trace w ++ [EvGetFiles pid; EvPrint (Downloading (JStr n));
                             EvGetDownload url; EvOpenWrite n].
Proof.
  intros args pid w r data c url n content err es Hl Hd Hp Hu Ht Hn Hplain Hget Hs Hdir.
  destruct (pick_truthy _ _ _ _ _ Hp) as (_ & Hc).
  pose proof (get_truthy_getitem _ _ _ Hu Ht) as Hdl.
  eexists. split; [|split; [|split; [|split]]].
  - unfold fetch_project, bindM, ask, emit, lift. simpl. rewrite Hl. simpl.
    rewrite Hd. simpl. rewrite Hp. simpl. rewrite Hc, Hu, Ht. simpl.
    rewrite Hn, Hdl, Hget. simpl. unfold save. rewrite Hplain.
    unfold bindM, ask, emit, put_stage, raise, ret. simpl. rewrite Hs.
    destruct (lookup_entry n es) as [[k|]|]; [|now contradiction Hdir|];
      destruct err; reflexivity.
  - reflexivity.
  - unfold entry_at. simpl. now rewrite lookup_write_entry, String.eqb_refl.
  - intros m Hm. unfold entry_at. simpl. rewrite lookup_write_entry.
    apply String.eqb_neq in Hm. now rewrite Hm.
  - simpl. rewrite <- !app_assoc. reflexivity.
Qed.

Lemma download_stored_under_file_name_witness :
  exists w',
    fetch_project sample_args (JInt 238222)
      (sample_world (Some "key") (JList [JInt 238222])
         (Listing [("mod.jar", RegularFile "old"); ("notes.txt", RegularFile "y")]))
    = (Ok tt, w') /\
    stage w' = Listing (write_entry "mod.jar" "PK"
                          [("mod.jar", RegularFile "old"); ("notes.txt", RegularFile "y")]) /\
    entry_at w' "mod.jar" = Some (RegularFile "PK") /\
    (forall m, m <> "mod.jar" ->
               entry_at w' m
               = lookup_entry m [("mod.jar", RegularFile "old");
                                 ("notes.txt", RegularFile "y")]) /\
    trace w' = [EvGetFiles (JInt 238222); EvPrint (Downloading (JStr "mod.jar"));
                EvGetDownload (JStr "https://edge.example/mod.jar");
                EvOpenWrite "mod.jar"].
Proof.
  apply (download_stored_under_file_name sample_args (JInt 238222)
           (sample_world (Some "key") (JList [JInt 238222])
              (Listing [("mod.jar", RegularFile "old"); ("notes.txt", RegularFile "y")]))
           (JDict [("data",
                    JList [JDict [("fileName", JStr "mod.jar");
                                  ("downloadUrl", JStr "https://edge.example/mod.jar");
                                  ("fileDate", JStr "2024-01-01");
                                  ("releaseType", JInt 1);
                                  ("gameVersions",
                                   JList [JStr "1.20.1"; JStr "Forge"])]])])
           (JList [JDict [("fileName", JStr "mod.jar");
                          ("downloadUrl", JStr "https://edge.example/mod.jar");
                          ("fileDate", JStr "2024-01-01");
                          ("releaseType", JInt 1);
                          ("gameVersions", JList [JStr "1.20.1"; JStr "Forge"])]])
           (JDict [("fileName", JStr "mod.jar");
                   ("downloadUrl", JStr "https://edge.example/mod.jar");
                   ("fileDate", JStr "2024-01-01");
                   ("releaseType", JInt 1);
                   ("gameVersions", JList [JStr "1.20.1"; JStr "Forge"])])
           (JStr "https://edge.example/mod.jar") "mod.jar" "PK" None
           [("mod.jar", RegularFile "old"); ("notes.txt", RegularFile "y")]);
    try reflexivity.
  discriminate.
Defined.

(** X19: a chosen record with a download URL but no ["fileName"] stops
    the run with [KeyError] for that key before the download is requested
    or announced; nothing is written. *)
Theorem missing_file_name_stops_the_run :
  forall args pid w r data d url,
    get_files w (trace w) pid = Ok r ->
    Py.get r "data" (JList []) = Ok data ->
    pick_latest_release (Py.py_or data (JList []))
                        (mcver args) (loader args) (allow_beta args)
    = Ok (Some (JDict d)) ->
    Py.dict_get "downloadUrl" d = Some url ->
    Py.truthy url = true ->
    Py.dict_get "fileName" d = None ->
    fetch_project args pid w
    = (Raise (KeyError "fileName"), add_event (EvGetFiles pid) w).
Proof.
  intros args pid w r data d url Hl Hd Hp Hu Ht Hn.
  destruct (pick_truthy _ _ _ _ _ Hp) as (_ & Hc).
  unfold fetch_project, bindM, ask, emit, lift. simpl. rewrite Hl. simpl.
  rewrite Hd. simpl. rewrite Hp. simpl. simpl in Hc. rewrite Hc, Hu. simpl.
  rewrite Ht, Hn. reflexivity.
Qed.

Lemma missing_file_name_stops_the_run_witness :
  fetch_project sample_args (JInt 238222)
    (mkWorld (Some "key") (fun _ => Ok (JList []))
       (fun _ _ =>
          Ok (JDict [("data",
                      JList [JDict [("downloadUrl", JStr "https://edge.example/a");
                                    ("releaseType", JInt 1);
                                    ("gameVersions",
                                     JList [JStr "1.20.1"; JStr "Forge"])]])]))
       (fun _ _ => Ok ("PK", None)) (Listing []) [])
  = (Raise (KeyError "fileName"),
     add_event (EvGetFiles (JInt 238222))
       (mkWorld (Some "key") (fun _ => Ok (JList []))
          (fun _ _ =>
             Ok (JDict [("data",
                         JList [JDict [("downloadUrl", JStr "https://edge.example/a");
                                       ("releaseType", JInt 1);
                                       ("gameVersions",
                                        JList [JStr "1.20.1"; JStr "Forge"])]])]))
          (fun _ _ => Ok ("PK", None)) (Listing []) [])).
Proof.
  apply (missing_file_name_stops_the_run sample_args (JInt 238222) _
           (JDict [("data",
                    JList [JDict [("downloadUrl", JStr "https://edge.example/a");
                                  ("releaseType", JInt 1);
                                  ("gameVersions",
                                   JList [JStr "1.20.1"; JStr "Forge"])]])])
           (JList [JDict [("downloadUrl", JStr "https://edge.example/a");
                          ("releaseType", JInt 1);
                          ("gameVersions", JList [JStr "1.20.1"; JStr "Forge"])]])
           [("downloadUrl", JStr "https://edge.example/a");
            ("releaseType", JInt 1);
            ("gameVersions", JList [JStr "1.20.1"; JStr "Forge"])]
           (JStr "https://edge.example/a"));
    reflexivity.
Defined.

(** X20: a listing request that fails stops the loop with its exception:
    the projects after it are not attempted and the staging directory is
    as it was; a download request that fails does the same, and no file is
    opened for it. *)
Theorem failed_request_stops_the_loop :
  (forall args pid rest w e,
      get_files w (trace w) pid = Raise e ->
      download_all args (pid :: rest) w = (Raise e, add_event (EvGetFiles pid) w)) /\
  (forall args pid rest w r data c url n e,
      get_files w (trace w) pid = Ok r ->
      Py.get r "data" (JList []) = Ok data ->
      pick_latest_release (Py.py_or data (JList []))
                          (mcver args) (loader args) (allow_beta args) = Ok (Some c) ->
      Py.get c "downloadUrl" JNull = Ok url ->
      Py.truthy url = true ->
      Py.getitem c "fileName" = Ok n ->
      (forall tr, get_download w tr url = Raise e) ->
      exists w',
        download_all args (pid :: rest) w = (Raise e, w') /\
        stage w' = stage w /\
        trace w' = trace w ++ [EvGetFiles pid; EvPrint (Downloading n);
                               EvGetDownload url]).
Proof.
  split.
  - intros args pid rest w e Hl.
    unfold download_all. simpl.
    unfold fetch_project, bindM, ask, emit, lift. simpl. now rewrite Hl.
  - intros args pid rest w r data c url n e Hl Hd Hp Hu Ht Hn Hget.
    destruct (pick_truthy _ _ _ _ _ Hp) as (_ & Hc).
    pose proof (get_truthy_getitem _ _ _ Hu Ht) as Hdl.
    eexists. split; [|split].
    + unfold download_all. simpl.
      unfold fetch_project, bindM, ask, emit, lift. simpl. rewrite Hl. simpl.
      rewrite Hd. simpl. rewrite Hp. simpl. rewrite Hc, Hu, Ht. simpl.
      rewrite Hn, Hdl, Hget. reflexivity.
    + reflexivity.
    + simpl. rewrite <- !app_assoc. reflexivity.
Qed.

Lemma failed_request_stops_the_loop_witness :
  download_all sample_args [JInt 238222; JInt 32274]
    (mkWorld (Some "key") (fun _ => Ok (JList []))
       (fun _ _ => Raise RequestException)
       (fun _ _ => Ok ("PK", None)) (Listing [("notes.txt", RegularFile "y")]) [])
  = (Raise RequestException,
     add_event (EvGetFiles (JInt 238222))
       (mkWorld (Some "key") (fun _ => Ok (JList []))
          (fun _ _ => Raise RequestException)
          (fun _ _ => Ok ("PK", None)) (Listing [("notes.txt", RegularFile "y")]) [])).
Proof.
  apply (proj1 failed_request_stops_the_loop). reflexivity.
Defined.
